(** * MagicStreamMoviesServer: the gin handlers over the Mongo collections

    A shallow embedding of [controllers/user_controller.go] and
    [controllers/movie_controller.go].  A handler is a computation in a
    state monad over the two collections ("User" and "Movie") that also
    records the goroutine it starts, the calls made on a collection and the
    path they are made on, the send of the worker, the case its [select]
    takes and the [c.JSON] it writes.  What the outside decides during one
    request (whether a call on a collection returns an error, whether
    [time.After] fires before the worker's send is received, the fresh
    object id, the clock) is an explicit argument [Env]; bcrypt, the token
    utilities and the struct validator are an interface [Externals].  One
    request runs at a time: interleavings of several requests are not
    modelled. *)

From Stdlib Require Import ZArith List String Bool Lia.
From Stdlib Require Import Sorting.Sorted Sorting.Permutation.
Import ListNotations.

Open Scope string_scope.
Open Scope list_scope.
Open Scope Z_scope.

(** ** models *)

Record Genre := mkGenre {
  GenreID   : Z;        (* bson:"genre_id" *)
  GenreName : string    (* bson:"genre_name" *)
}.

Record Ranking := mkRanking {
  RankingValue : Z;     (* bson:"ranking_value" *)
  RankingName  : string (* bson:"ranking_name" *)
}.

(** [Genre_] and [Ranking_] are the fields [Genre] and [Ranking] of the Go
    struct (the names of the types are taken). *)
Record Movie := mkMovie {
  ID          : string;          (* bson:"_id,omitempty" *)
  ImdbID      : string;          (* bson:"imdb_id" *)
  Title       : string;
  PosterPath  : string;
  YouTubeID   : string;
  Genre_      : list Genre;      (* bson:"genre" *)
  AdminReview : option string;   (* pointer to string, omitempty *)
  Ranking_    : option Ranking   (* pointer to Ranking, omitempty *)
}.

(** Modelled from the spec: [models.User] is not among the sources.  The
    fields are those the controllers read and write, and the "current
    access token, current refresh token" of the spec's data model. *)
Record User := mkUser {
  UserID          : string;
  FirstName       : string;
  LastName        : string;
  Email           : string;
  Password        : string;
  Role            : string;
  CreatedAt       : Z;
  UpdatedAt       : Z;
  Token           : string;
  RefreshToken    : string;
  FavouriteGenres : list Genre
}.

(** [var user models.User]: every field at its zero value. *)
Definition zeroUser : User := mkUser "" "" "" "" "" "" 0 0 "" "" [].

(** Modelled from the spec: [models.UserLogin] and [models.UserResponse]
    are not among the sources; the fields are those [Login] reads and
    writes. *)
Record UserLogin := mkUserLogin {
  LoginEmail    : string;
  LoginPassword : string
}.

Record UserResponse := mkUserResponse {
  RespUserID          : string;
  RespFirstName       : string;
  RespLastName        : string;
  RespEmail           : string;
  RespRole            : string;
  RespToken           : string;
  RespRefreshToken    : string;
  RespFavouriteGenres : list Genre
}.

(** The anonymous request struct of [AdminReviewUpdate]. *)
Record ReviewReq := mkReviewReq {
  ReqAdminReview : string;   (* validate:"required" *)
  ReqRating      : Z         (* validate:"required,min=1,max=10" *)
}.

(** ** Errors *)

(** One failed constraint of the struct validator: field and tag. *)
Definition FieldError : Type := (string * string)%type.

Inductive error : Type :=
| errorString (msg : string)                 (* fmt.Errorf, driver and library errors *)
| ValidationErrors (fs : list FieldError).   (* validator.ValidationErrors *)

Inductive Result (A : Type) : Type :=
| Ok (a : A)
| Err (e : error).
Arguments Ok {A} a.
Arguments Err {A} e.

(** ** getRatingName *)

Definition getRatingName (rating : Z) : string :=
  if rating >=? 9 then "excellent"
  else if rating >=? 7 then "good"
  else if rating >=? 5 then "average"
  else if rating >=? 3 then "poor"
  else "terrible".

(** ** The validator on the review request

    [required] fails on the zero value; [min] and [max] compare the number.
    The tags of a field are tried in order and the first that fails is
    reported; the fields are visited in declaration order. *)

Definition validateString_required (field v : string) : list FieldError :=
  if (v =? "")%string then [(field, "required")] else [].

Definition validateRating (field : string) (v : Z) : list FieldError :=
  if v =? 0 then [(field, "required")]
  else if v <? 1 then [(field, "min")]
  else if 10 <? v then [(field, "max")]
  else [].

Definition validateReviewReq (req : ReviewReq) : option error :=
  match validateString_required "AdminReview" (ReqAdminReview req)
        ++ validateRating "Rating" (ReqRating req) with
  | [] => None
  | fs => Some (ValidationErrors fs)
  end.

(** ** gin: what [c.JSON] writes *)

(** The [gin.H] maps and arrays that the handlers write, one constructor per
    shape.  Where the source writes [err.Error()] the constructor carries
    the error whose text is written. *)
Inductive Body : Type :=
| H_error (err : error)                     (* gin.H{"error": ...} *)
| H_validation (details : error)            (* gin.H{"error": "Validation failed", "details": ...} *)
| H_message (message : string)              (* gin.H{"message": ...} *)
| MoviesArray (movies : list Movie)
| H_top_rated (top_rated_movies : list Movie) (total_found minimum_rating : Z)
| H_by_genre (movies : list Movie) (genre : string) (total_found : Z)
| H_recommended (recommended_movies : list Movie)
                (based_on_genres : list string) (total_found : Z)
| H_no_favourites (message : string) (movies : list Movie)
                  (user_genres : list string)
| H_registered (token id username email role : string)
               (favoriteGenres : list Genre)
| H_login (response : UserResponse)
| H_review (message admin_review : string) (rating : Z)
           (ranking_name : string).

Definition Response : Type := (Z * Body)%type.

Definition status (r : Response) : Z := fst r.
Definition body (r : Response) : Body := snd r.

(** ** Mongo: filters, options and what they select *)

Inductive MovieFilter : Type :=
| FilterAll                                   (* bson.M{} *)
| FilterImdbID (imdb_id : string)             (* {"imdb_id": id} *)
| FilterRankingGte (v : Z)                    (* {"ranking.ranking_value": {"$gte": v}} *)
| FilterGenreRegex (pattern : string)         (* {"genre.genre_name": {"$regex": p, "$options": "i"}} *)
| FilterGenreInRankingGte (names : list string) (v : Z).
                                              (* {"genre.genre_name": {"$in": names},
                                                  "ranking.ranking_value": {"$gte": v}} *)

Record FindOptions := mkFindOptions {
  SortRankingValue : option Z;   (* SetSort(bson.D{{"ranking.ranking_value", d}}) *)
  Limit            : Z           (* SetLimit(n); 0 when not set *)
}.

Definition noOptions : FindOptions := mkFindOptions None 0.

(** The value at the path "ranking.ranking_value", absent without a ranking. *)
Definition rankingValue (m : Movie) : option Z :=
  option_map RankingValue (Ranking_ m).

Definition rankingGte (v : Z) (m : Movie) : bool :=
  match rankingValue m with
  | Some x => v <=? x
  | None => false
  end.

Definition inb (s : string) (l : list string) : bool :=
  existsb (String.eqb s) l.

(** "genre.genre_name" reaches into the array: one element suffices. *)
Definition genreIn (names : list string) (m : Movie) : bool :=
  existsb (fun g => inb (GenreName g) names) (Genre_ m).

Section Matching.
(** [$regex] with option "i" on one string, left to the server. *)
Variable regexMatch : string -> string -> bool.

Definition matches (f : MovieFilter) (m : Movie) : bool :=
  match f with
  | FilterAll => true
  | FilterImdbID id => (ImdbID m =? id)%string
  | FilterRankingGte v => rankingGte v m
  | FilterGenreRegex p => existsb (fun g => regexMatch p (GenreName g)) (Genre_ m)
  | FilterGenreInRankingGte names v => genreIn names m && rankingGte v m
  end.
End Matching.

(** Order of the sort key: an absent value sorts below every number. *)
Definition keyLe (a b : option Z) : bool :=
  match a, b with
  | None, _ => true
  | Some _, None => false
  | Some x, Some y => x <=? y
  end.

(** [before d a b]: [a] may come before [b] when sorting in direction [d]
    (negative: descending). *)
Definition before (d : Z) (a b : Movie) : bool :=
  if d <? 0 then keyLe (rankingValue b) (rankingValue a)
  else keyLe (rankingValue a) (rankingValue b).

Fixpoint insertSorted (le : Movie -> Movie -> bool) (x : Movie)
         (l : list Movie) : list Movie :=
  match l with
  | [] => [x]
  | y :: l' => if le x y then x :: l else y :: insertSorted le x l'
  end.

(** The order among documents with equal keys is a choice of this
    definition (they stay in the order of the collection); the store
    promises none, so the properties below speak of a sorted list up to
    the order of equal keys. *)
Definition sortMovies (le : Movie -> Movie -> bool) (l : list Movie) : list Movie :=
  fold_right (insertSorted le) [] l.

Definition applySort (o : FindOptions) (l : list Movie) : list Movie :=
  match SortRankingValue o with
  | Some d => sortMovies (before d) l
  | None => l
  end.

Definition applyLimit (o : FindOptions) (l : list Movie) : list Movie :=
  if 0 <? Limit o then firstn (Z.to_nat (Limit o)) l else l.

(** The documents a [Find] with this filter and these options yields. *)
Definition selectMovies (regexMatch : string -> string -> bool)
           (f : MovieFilter) (o : FindOptions) (coll : list Movie) : list Movie :=
  applyLimit o (applySort o (filter (matches regexMatch f) coll)).

(** [UpdateOne]: the first document the filter matches is rewritten; the
    second component is [MatchedCount]. *)
Fixpoint updateFirst (p : Movie -> bool) (f : Movie -> Movie)
         (l : list Movie) : list Movie * Z :=
  match l with
  | [] => ([], 0)
  | m :: l' =>
      if p m then (f m :: l', 1)
      else let (l'', n) := updateFirst p f l' in (m :: l'', n)
  end.

(** [$set] of "admin_review" and "ranking". *)
Definition setReview (admin_review : string) (r : Ranking) (m : Movie) : Movie :=
  mkMovie (ID m) (ImdbID m) (Title m) (PosterPath m) (YouTubeID m) (Genre_ m)
          (Some admin_review) (Some r).

(** The document [InsertOne] writes for a movie: a zero [ID] is left out of
    the document (omitempty) and the driver adds a fresh "_id"; an [ID] the
    body carried is written as it is. *)
Definition withObjectID (fresh : string) (m : Movie) : Movie :=
  if (ID m =? "")%string
  then mkMovie fresh (ImdbID m) (Title m) (PosterPath m) (YouTubeID m)
               (Genre_ m) (AdminReview m) (Ranking_ m)
  else m.

Fixpoint updateFirstUser (p : User -> bool) (f : User -> User)
         (l : list User) : list User :=
  match l with
  | [] => []
  | u :: l' => if p u then f u :: l' else u :: updateFirstUser p f l'
  end.

Definition setTokens (token refreshToken : string) (u : User) : User :=
  mkUser (UserID u) (FirstName u) (LastName u) (Email u) (Password u) (Role u)
         (CreatedAt u) (UpdatedAt u) token refreshToken (FavouriteGenres u).

(** ** Calls on the collections, events, state *)

Inductive StoreOp : Type :=
| CountDocuments (email : string)       (* userCollection.CountDocuments(ctx, {"email": e}) *)
| InsertOneUser (u : User)              (* userCollection.InsertOne(ctx, user) *)
| FindOneByEmail (email : string)       (* userCollection.FindOne(ctx, {"email": e}).Decode *)
| FindOneByUserID (user_id : string)    (* userColl.FindOne(ctx, {"user_id": id}).Decode *)
| UpdateAllTokens (user_id token refreshToken : string)
| Find (f : MovieFilter) (o : FindOptions)      (* movieCollection.Find(ctx, filter, opts) *)
| CursorAll                             (* cursor.All(ctx, &movies) *)
| InsertOneMovie (m : Movie)            (* movieCollection.InsertOne(ctx, movie) *)
| UpdateOne (imdb_id admin_review : string) (ranking : Ranking).
                                        (* movieCollection.UpdateOne(ctx, filter, update) *)

(** The path a statement runs on: the handler itself, or the function
    literal of a [go] statement. *)
Inductive Thread : Type := HandlerThread | WorkerThread.

(** The result channel of a handler ([moviesChan], [userMade], [userToken],
    [movieMade]) and its [errorChan]. *)
Inductive Chan : Type := resultChan | errorChan.

Inductive SelectCase : Type := CaseResult | CaseError | CaseTimeAfter.

Inductive Event : Type :=
| EvGo                                  (* go func() { ... }() *)
| EvStore (th : Thread) (op : StoreOp)  (* a call on a collection, and where *)
| EvSend (ch : Chan)                    (* ch <- v *)
| EvSelect (c : SelectCase)             (* the case the select takes *)
| EvJSON (status : Z) (b : Body).       (* c.JSON(status, b) *)

Record State := mkState {
  users  : list User;     (* collection "User" *)
  movies : list Movie;    (* collection "Movie" *)
  thread : Thread;
  trace  : list Event
}.

(** A state at the start of a request. *)
Definition initState (us : list User) (ms : list Movie) : State :=
  mkState us ms HandlerThread [].

(** What the outside decides during one request. *)
Record Env := mkEnv {
  fault : StoreOp -> option error;  (* the error a call returns; None: it succeeds *)
  timer_first : bool;               (* <-time.After(10 * time.Second) is taken
                                       before the worker's send is received *)
  NewObjectIDHex : string;          (* the fresh ObjectID of the request, in hex:
                                       bson.NewObjectID().Hex(), and the "_id"
                                       the driver adds in InsertOne *)
  timeNow : nat -> Z                (* the n-th time.Now() of the request *)
}.

(** bcrypt, the token utilities (package utils) and the struct validator on
    the types whose tags the controllers do not show. *)
Class Externals := {
  GenerateFromPassword : string -> Result string;
  CompareHashAndPassword : string -> string -> option error;
  GenerateAccessToken : string -> string -> string -> string -> string -> Result string;
  GenerateRefreshToken : string -> string -> string -> string -> string -> Result string;
  validateUser : User -> option error;     (* validator.New().Struct(user) *)
  validateMovie : Movie -> option error;   (* movieValidate.Struct(movie) *)
  regexMatch : string -> string -> bool    (* $regex, $options "i" *)
}.

(** ** The monad of a request *)

Definition M (A : Type) : Type := State -> A * State.

Definition ret {A} (a : A) : M A := fun st => (a, st).

Definition bind {A B} (c : M A) (k : A -> M B) : M B :=
  fun st => let (a, st') := c st in k a st'.

Declare Scope req_scope.
Delimit Scope req_scope with req.
Notation "x <- c ;; k" := (bind c (fun x => k))
  (at level 100, c at next level, right associativity) : req_scope.
Notation "c ;; k" := (bind c (fun _ => k))
  (at level 100, right associativity) : req_scope.
Open Scope req_scope.

Definition emit (e : Event) : M unit :=
  fun st => (tt, mkState (users st) (movies st) (thread st) (trace st ++ [e])).

Definition setThread (t : Thread) : M unit :=
  fun st => (tt, mkState (users st) (movies st) t (trace st)).

Definition getThread : M Thread := fun st => (thread st, st).
Definition readUsers : M (list User) := fun st => (users st, st).
Definition readMovies : M (list Movie) := fun st => (movies st, st).

Definition writeUsers (us : list User) : M unit :=
  fun st => (tt, mkState us (movies st) (thread st) (trace st)).

Definition writeMovies (ms : list Movie) : M unit :=
  fun st => (tt, mkState (users st) ms (thread st) (trace st)).

(** A worker sends on [errorChan] and returns at the first error. *)
Definition bindR {A B} (c : M (Result A)) (k : A -> M (Result B)) : M (Result B) :=
  r <- c ;;
  match r with
  | Ok a => k a
  | Err e => ret (Err e)
  end.

Notation "x <-? c ;; k" := (bindR c (fun x => k))
  (at level 100, c at next level, right associativity) : req_scope.

(** [c.JSON(status, b)]; the handler returns after it. *)
Definition JSON (status : Z) (b : Body) : M Response :=
  emit (EvJSON status b) ;; ret (status, b).

(** A call on a collection: recorded with the path it runs on; it returns
    the error the outside chose, and otherwise does [run]. *)
Definition call {A} (env : Env) (op : StoreOp) (run : M A) : M (Result A) :=
  th <- getThread ;;
  emit (EvStore th op) ;;
  match fault env op with
  | Some e => ret (Err e)
  | None => a <- run ;; ret (Ok a)
  end.

(** [go func() { ... }()]: the function literal runs on its own path and
    ends with one send, on [errorChan] when it stopped at an error.  The
    value is what it sent.  The worker runs to its end whatever the
    [select] of the handler takes (the timer does not cancel it): its
    effects on the collections stay, and its events are recorded where it
    is started. *)
Definition go {A} (worker : M (Result A)) : M (Result A) :=
  emit EvGo ;;
  th <- getThread ;;
  setThread WorkerThread ;;
  r <- worker ;;
  emit (EvSend (match r with Ok _ => resultChan | Err _ => errorChan end)) ;;
  setThread th ;;
  ret r.

(** The three-way [select] of the handlers. *)
Inductive Selected (A : Type) : Type :=
| Received (a : A)      (* case v := <-resultChan *)
| Failed (e : error)    (* case err := <-errorChan *)
| TimedOut.             (* case <-time.After(10 * time.Second) *)
Arguments Received {A} a.
Arguments Failed {A} e.
Arguments TimedOut {A}.

Definition caseOf {A} (s : Selected A) : SelectCase :=
  match s with
  | Received _ => CaseResult
  | Failed _ => CaseError
  | TimedOut => CaseTimeAfter
  end.

Definition select {A} (env : Env) (sent : Result A) : M (Selected A) :=
  let s := if timer_first env then TimedOut
           else match sent with
                | Ok a => Received a
                | Err e => Failed e
                end in
  emit (EvSelect (caseOf s)) ;; ret s.

(** ** net/http status codes *)

Definition StatusOK : Z := 200.
Definition StatusCreated : Z := 201.
Definition StatusBadRequest : Z := 400.
Definition StatusNotFound : Z := 404.
Definition StatusConflict : Z := 409.
Definition StatusInternalServerError : Z := 500.

(** [err.Error() == s].  The text of a validator error starts with "Key: "
    and is none of the literals a handler compares with. *)
Definition errorIs (err : error) (s : string) : bool :=
  match err with
  | errorString m => (m =? s)%string
  | ValidationErrors _ => false
  end.

(** What [FindOne(...).Decode(&user)] reports. *)
Inductive Decoded : Type :=
| Found (u : User)          (* err == nil, user filled *)
| ErrNoDocuments            (* err == mongo.ErrNoDocuments *)
| ErrOther (e : error).     (* any other error; user is left as it was *)

Section Controllers.
Context `{X : Externals}.
Variable env : Env.

(** *** The calls, on the state *)

Definition userCollection_CountDocuments (email : string) : M (Result Z) :=
  call env (CountDocuments email)
    (us <- readUsers ;;
     ret (Z.of_nat (List.length (filter (fun u => (Email u =? email)%string) us)))).

Definition userCollection_InsertOne (user : User) : M (Result unit) :=
  call env (InsertOneUser user)
    (us <- readUsers ;; writeUsers (us ++ [user])).

Definition FindOneDecode (op : StoreOp) (p : User -> bool) : M Decoded :=
  r <- call env op (us <- readUsers ;; ret (find p us)) ;;
  ret match r with
      | Err e => ErrOther e
      | Ok None => ErrNoDocuments
      | Ok (Some u) => Found u
      end.

(** Modelled from the spec: [utils.UpdateAllTokens] (package utils is not
    among the sources), "persists the latest pair onto the user's record,
    overwriting any prior pair; fails with PersistenceError on store
    failure". *)
Definition utils_UpdateAllTokens (userID token refreshToken : string)
  : M (Result unit) :=
  call env (UpdateAllTokens userID token refreshToken)
    (us <- readUsers ;;
     writeUsers (updateFirstUser (fun u => (UserID u =? userID)%string)
                               (setTokens token refreshToken) us)).

(** [movieCollection.Find] followed by [cursor.All]: the block every
    listing worker repeats. *)
Definition findMovies (f : MovieFilter) (o : FindOptions)
  : M (Result (list Movie)) :=
  cursor <-? call env (Find f o)
               (ms <- readMovies ;; ret (selectMovies regexMatch f o ms)) ;;
  call env CursorAll (ret cursor).

Definition movieCollection_InsertOne (movie : Movie) : M (Result unit) :=
  call env (InsertOneMovie movie)
    (ms <- readMovies ;;
     writeMovies (ms ++ [withObjectID (NewObjectIDHex env) movie])).

(** The value is [result.MatchedCount]. *)
Definition movieCollection_UpdateOne (imdb_id admin_review : string)
           (ranking : Ranking) : M (Result Z) :=
  call env (UpdateOne imdb_id admin_review ranking)
    (ms <- readMovies ;;
     let (ms', matched) :=
       updateFirst (fun m => (ImdbID m =? imdb_id)%string)
                   (setReview admin_review ranking) ms in
     writeMovies ms' ;; ret matched).

(** *** user_controller.go *)

Definition HashPassword (password : string) : Result string :=
  match GenerateFromPassword password with
  | Err err => Err err
  | Ok h => Ok h
  end.

(** The assignments of the worker to the shared [user]. *)
Definition stamp (user : User) (hashedPassword : string) : User :=
  mkUser (NewObjectIDHex env) (FirstName user) (LastName user) (Email user)
         hashedPassword (Role user) (timeNow env 0%nat) (timeNow env 1%nat)
         (Token user) (RefreshToken user) (FavouriteGenres user).

(** [body] is what [c.ShouldBindJSON(&user)] left in [user], [None] when
    it returned an error.  The worker's result carries the shared [user]
    as the worker left it ([userMade <- true]). *)
Definition RegisterUser (body : option User) : M Response :=
  match body with
  | None => JSON 400 (H_error (errorString "Invalid JSON"))
  | Some user =>
      match HashPassword (Password user) with
      | Err _ =>
          JSON StatusInternalServerError
               (H_error (errorString "Failed to hash password"))
      | Ok hashedPassword =>
          sent <- go
            (count <-? userCollection_CountDocuments (Email user) ;;
             if 0 <? count
             then ret (Err (errorString "User with this email already exists"))
             else
               let user := stamp user hashedPassword in
               match validateUser user with
               | Some err => ret (Err err)
               | None =>
                   _ <-? userCollection_InsertOne user ;;
                   ret (Ok user)
               end) ;;
          s <- select env sent ;;
          match s with
          | Received user =>
              match GenerateAccessToken (Email user) (FirstName user)
                      (LastName user) (Role user) (UserID user) with
              | Err _ => JSON 500 (H_error (errorString "Failed to generate token"))
              | Ok token =>
                  JSON StatusCreated
                       (H_registered token (UserID user)
                          (FirstName user ++ " " ++ LastName user)%string
                          (Email user) (Role user) (FavouriteGenres user))
              end
          | Failed err =>
              if errorIs err "User with this email already exists"
              then JSON StatusConflict (H_error err)
              else JSON 500 (H_error err)
          | TimedOut => JSON 408 (H_error (errorString "request timeout"))
          end
      end
  end.

Definition Login (body : option UserLogin) : M Response :=
  match body with
  | None => JSON 400 (H_error (errorString "Invalid JSON"))
  | Some userLogin =>
      sent <- go
        (d <- FindOneDecode (FindOneByEmail (LoginEmail userLogin))
                (fun u => (Email u =? LoginEmail userLogin)%string) ;;
         match d with
         | ErrNoDocuments => ret (Err (errorString "Invalid credentials"))
         | _ =>
             (* any other error falls through with [user] as declared *)
             let user := match d with Found u => u | _ => zeroUser end in
             match CompareHashAndPassword (Password user)
                     (LoginPassword userLogin) with
             | Some _ => ret (Err (errorString "Wrong Password"))
             | None =>
                 match GenerateAccessToken (Email user) (FirstName user)
                         (LastName user) (Role user) (UserID user) with
                 | Err err => ret (Err err)
                 | Ok token =>
                     match GenerateRefreshToken (Email user) (FirstName user)
                             (LastName user) (Role user) (UserID user) with
                     | Err err => ret (Err err)
                     | Ok refreshToken =>
                         _ <-? utils_UpdateAllTokens (UserID user) token refreshToken ;;
                         ret (Ok (mkUserResponse (UserID user) (FirstName user)
                                    (LastName user) (Email user) (Role user)
                                    token refreshToken (FavouriteGenres user)))
                     end
                 end
             end
         end) ;;
      s <- select env sent ;;
      match s with
      | Received response => JSON 200 (H_login response)
      | Failed err => JSON 401 (H_error err)
      | TimedOut => JSON 408 (H_error (errorString "timeout"))
      end
  end.

(** *** movie_controller.go *)

Definition GetMovies : M Response :=
  sent <- go (findMovies FilterAll noOptions) ;;
  s <- select env sent ;;
  match s with
  | Received movies => JSON 200 (MoviesArray movies)
  | Failed err => JSON 500 (H_error err)
  | TimedOut => JSON 408 (H_error (errorString "request timeout"))
  end.

Definition GetMovie (imdb_id : string) : M Response :=
  sent <- go (findMovies (FilterImdbID imdb_id) noOptions) ;;
  s <- select env sent ;;
  match s with
  | Received movies => JSON 200 (MoviesArray movies)
  | Failed err => JSON 500 (H_error err)
  | TimedOut => JSON 408 (H_error (errorString "request timeout"))
  end.

Definition GetTopRatedMovies : M Response :=
  sent <- go (findMovies (FilterRankingGte 7) (mkFindOptions (Some (-1)) 20)) ;;
  s <- select env sent ;;
  match s with
  | Received movies =>
      JSON 200 (H_top_rated movies (Z.of_nat (List.length movies)) 7)
  | Failed err => JSON 500 (H_error err)
  | TimedOut => JSON 408 (H_error (errorString "request timeout"))
  end.

Definition GetMoviesByGenre (genreName : string) : M Response :=
  if (genreName =? "")%string
  then JSON StatusBadRequest (H_error (errorString "Genre parameter required"))
  else
    sent <- go (findMovies (FilterGenreRegex genreName) (mkFindOptions None 20)) ;;
    s <- select env sent ;;
    match s with
    | Received movies =>
        JSON 200 (H_by_genre movies genreName (Z.of_nat (List.length movies)))
    | Failed err => JSON 500 (H_error err)
    | TimedOut => JSON 408 (H_error (errorString "request timeout"))
    end.

(** [body]: what [c.ShouldBindJSON(&movie)] left in [movie]. *)
Definition MakeMovies (body : option Movie) : M Response :=
  match body with
  | None => JSON 400 (H_error (errorString "Invalid JSON"))
  | Some movie =>
      match validateMovie movie with
      | Some err => JSON StatusBadRequest (H_validation err)
      | None =>
          sent <- go (movieCollection_InsertOne movie) ;;
          s <- select env sent ;;
          match s with
          | Received _ => JSON 201 (H_message "Movie created successfully")
          | Failed err => JSON 500 (H_error err)
          | TimedOut => JSON 408 (H_error (errorString "request timeout"))
          end
      end
  end.

Definition AdminReviewUpdate (movieId : string) (body : option ReviewReq)
  : M Response :=
  if (movieId =? "")%string
  then JSON StatusBadRequest (H_error (errorString "Movie ID required"))
  else
    match body with
    | None => JSON StatusBadRequest (H_error (errorString "Invalid request data"))
    | Some req =>
        match validateReviewReq req with
        | Some err => JSON StatusBadRequest (H_validation err)
        | None =>
            let rankingName := getRatingName (ReqRating req) in
            r <- movieCollection_UpdateOne movieId (ReqAdminReview req)
                   (mkRanking (ReqRating req) rankingName) ;;
            match r with
            | Err _ =>
                JSON StatusInternalServerError
                     (H_error (errorString "Failed to update movie"))
            | Ok matchedCount =>
                if matchedCount =? 0
                then JSON StatusNotFound (H_error (errorString "Movie not found"))
                else JSON StatusOK
                       (H_review "Review updated successfully"
                          (ReqAdminReview req) (ReqRating req) rankingName)
            end
        end
    end.

(** The pair (pointer to the user, error): the user, or the error of the
    lookup. *)
Definition getUserById (userID : string) : M (Result User) :=
  d <- FindOneDecode (FindOneByUserID userID)
         (fun u => (UserID u =? userID)%string) ;;
  ret match d with
      | Found user => Ok user
      | ErrNoDocuments => Err (errorString "mongo: no documents in result")
      | ErrOther err => Err err
      end.

Definition GetRecommendedMovies (userID : string) : M Response :=
  if (userID =? "")%string
  then JSON StatusBadRequest (H_error (errorString "User ID required"))
  else
    r <- getUserById userID ;;
    match r with
    | Err _ => JSON StatusNotFound (H_error (errorString "User not found"))
    | Ok user =>
        let genreNames := map GenreName (FavouriteGenres user) in
        if (List.length genreNames =? 0)%nat
        then JSON StatusOK
               (H_no_favourites "No favorite genres set for user" [] [])
        else
          sent <- go (findMovies (FilterGenreInRankingGte genreNames 6)
                                 (mkFindOptions (Some (-1)) 10)) ;;
          s <- select env sent ;;
          match s with
          | Received movies =>
              JSON 200 (H_recommended movies genreNames
                          (Z.of_nat (List.length movies)))
          | Failed err => JSON 500 (H_error err)
          | TimedOut => JSON 408 (H_error (errorString "request timeout"))
          end
    end.

End Controllers.

(** The run of a handler on a store: response, store after, trace. *)
Definition run {A} (h : M A) (us : list User) (ms : list Movie) : A * State :=
  h (initState us ms).

Definition responseOf (h : M Response) (us : list User) (ms : list Movie) : Response :=
  fst (run h us ms).

Definition traceOf {A} (h : M A) (us : list User) (ms : list Movie) : list Event :=
  trace (snd (run h us ms)).

(** ** Reading a run *)

(** The movies a response body lists. *)
Definition moviesOf (b : Body) : list Movie :=
  match b with
  | MoviesArray l => l
  | H_top_rated l _ _ => l
  | H_by_genre l _ _ => l
  | H_recommended l _ _ => l
  | H_no_favourites _ l _ => l
  | _ => []
  end.

(** [descending a b]: the ranking value of [b] is not above that of [a]; a
    movie without a ranking is below every ranked one. *)
Definition descending (a b : Movie) : Prop :=
  match rankingValue b, rankingValue a with
  | None, _ => True
  | Some _, None => False
  | Some y, Some x => y <= x
  end.

(** The threshold table in the spec's words: at least 9 "excellent", at
    least 7 "good", at least 5 "average", at least 3 "poor", else
    "terrible". *)
Definition rankingNameTable (r : Z) (name : string) : Prop :=
  (9 <= r -> name = "excellent") /\
  (7 <= r < 9 -> name = "good") /\
  (5 <= r < 7 -> name = "average") /\
  (3 <= r < 5 -> name = "poor") /\
  (r < 3 -> name = "terrible").

Definition isGo (e : Event) : bool :=
  match e with EvGo => true | _ => false end.

Definition isStore (e : Event) : bool :=
  match e with EvStore _ _ => true | _ => false end.

(** Nothing is started and nothing is called on a collection. *)
Definition synchronous (tr : list Event) : bool :=
  negb (existsb isGo tr) && negb (existsb isStore tr).

Definition SelectCase_eqb (a b : SelectCase) : bool :=
  match a, b with
  | CaseResult, CaseResult => true
  | CaseError, CaseError => true
  | CaseTimeAfter, CaseTimeAfter => true
  | _, _ => false
  end.

(** The case the race takes when the worker sent on [ch]. *)
Definition raceCase (env : Env) (ch : Chan) : SelectCase :=
  if timer_first env then CaseTimeAfter
  else match ch with
       | resultChan => CaseResult
       | errorChan => CaseError
       end.

(** The status a case of the race is answered with: 408 for the timer;
    401, 409 or 500 for [errorChan]; 200 or 201 for the result channel, or
    500 when [RegisterUser] cannot generate the token. *)
Definition answerFits (c : SelectCase) (status : Z) : bool :=
  match c with
  | CaseTimeAfter => status =? 408
  | CaseError => (status =? 401) || (status =? 409) || (status =? 500)
  | CaseResult => (status =? 200) || (status =? 201) || (status =? 500)
  end.

(** After the [go]: calls on the worker's path only, its one send, the
    case of the race, the answer of that case; 408 exactly when the timer
    was first. *)
Fixpoint workerThenRace (env : Env) (tr : list Event) : bool :=
  match tr with
  | EvStore WorkerThread _ :: tr' => workerThenRace env tr'
  | EvSend ch :: EvSelect c :: EvJSON status _ :: [] =>
      SelectCase_eqb c (raceCase env ch) &&
      answerFits c status &&
      Bool.eqb (status =? 408) (timer_first env)
  | _ => false
  end.

(** The bounded worker pattern, read off a trace: a worker is started
    first, every call on a collection is the worker's, and the answer is
    decided by the three-way race. *)
Definition boundedWorker (env : Env) (tr : list Event) : bool :=
  match tr with
  | EvGo :: tr' => workerThenRace env tr'
  | _ => false
  end.

(** ** A concrete instance, to run the handlers on examples

    Stand-ins with the shape of the real capabilities: a hash that the
    matching password verifies and that refuses passwords over 72 bytes and
    hashes too short to be one, tokens that name their subject, and
    validators for required fields. *)

Fixpoint containsStr (p s : string) : bool :=
  String.prefix p s ||
  match s with
  | EmptyString => false
  | String _ s' => containsStr p s'
  end.

Definition sampleHash (password : string) : Result string :=
  if (72 <? String.length password)%nat
  then Err (errorString "bcrypt: password length exceeds 72 bytes")
  else Ok ("$2a$10$" ++ password)%string.

Definition sampleCompare (hash password : string) : option error :=
  if (String.length hash <? 7)%nat
  then Some (errorString "crypto/bcrypt: hashedSecret too short to be a bcrypted password")
  else if (hash =? "$2a$10$" ++ password)%string then None
  else Some (errorString "crypto/bcrypt: hashedPassword is not the hash of the given password").

(** Modelled from the spec: the tags of [models.User] are not among the
    sources; "validates required fields (email, password, names)". *)
Definition sampleValidateUser (u : User) : option error :=
  match validateString_required "Email" (Email u)
        ++ validateString_required "Password" (Password u)
        ++ validateString_required "FirstName" (FirstName u)
        ++ validateString_required "LastName" (LastName u) with
  | [] => None
  | fs => Some (ValidationErrors fs)
  end.

Definition sampleValidateMovie (m : Movie) : option error :=
  match validateString_required "ImdbID" (ImdbID m)
        ++ validateString_required "Title" (Title m)
        ++ validateString_required "PosterPath" (PosterPath m)
        ++ validateString_required "YouTubeID" (YouTubeID m) with
  | [] => None
  | fs => Some (ValidationErrors fs)
  end.

Definition sampleExternals : Externals := {|
  GenerateFromPassword := sampleHash;
  CompareHashAndPassword := sampleCompare;
  GenerateAccessToken := fun email _ _ _ _ => Ok ("access." ++ email)%string;
  GenerateRefreshToken := fun email _ _ _ _ => Ok ("refresh." ++ email)%string;
  validateUser := sampleValidateUser;
  validateMovie := sampleValidateMovie;
  regexMatch := containsStr
|}.

(** Every call succeeds and the worker reports before the timer. *)
Definition calmEnv : Env :=
  mkEnv (fun _ => None) false "64f0c0ffee64f0c0ffee64f0" (fun n => 1700000000 + Z.of_nat n).

(** The same, with the timer first. *)
Definition lateEnv : Env :=
  mkEnv (fun _ => None) true "64f0c0ffee64f0c0ffee64f0" (fun n => 1700000000 + Z.of_nat n).

(** The lookups by email fail (the server cannot be reached); the worker
    still reports before the timer. *)
Definition lookupDownEnv : Env :=
  mkEnv (fun op => match op with
                   | FindOneByEmail _ => Some (errorString "server selection error")
                   | _ => None
                   end)
        false "64f0c0ffee64f0c0ffee64f0" (fun n => 1700000000 + Z.of_nat n).

Definition drama : Genre := mkGenre 1 "Drama".
Definition comedy : Genre := mkGenre 2 "Comedy".

Definition alice : User :=
  mkUser "u1" "Alice" "Ames" "alice@example.com" "$2a$10$secret" "user"
         1 1 "" "" [drama].

Definition bob : User :=
  mkUser "u2" "Bob" "Bell" "bob@example.com" "$2a$10$hunter2" "user"
         2 2 "" "" [].

(** A password of 73 bytes, one more than bcrypt hashes. *)
Definition longPassword : string :=
  "correct-horse-battery-staple-correct-horse-battery-staple-correct-horse-b".

Definition film (imdb : string) (gs : list Genre) (r : option Z) : Movie :=
  mkMovie "" imdb imdb "https://example.com/p.jpg" "yt" gs None
          (option_map (fun v => mkRanking v (getRatingName v)) r).

Definition catalog : list Movie :=
  [ film "tt1" [drama] (Some 6); film "tt2" [comedy] (Some 9);
    film "tt3" [drama; comedy] (Some 8); film "tt4" [drama] None;
    film "tt5" [drama] (Some 10); film "tt6" [comedy] (Some 3) ].

(** ** database: the connection string

    [dbInstance] of the later database_connection.go: the string read from
    MONGODB_URI as it is handed to [options.Client().ApplyURI]; [None]
    when [log.Fatal] ends the process. *)

(** [strings.Contains(s, substr)]: [substr] occurs in [s] at some offset. *)
Definition strings_Contains (s substr : string) : bool := containsStr substr s.

Definition dbInstance_URI (MONGODB_URI : string) : option string :=
  let MongoDb := MONGODB_URI in
  if (MongoDb =? "")%string then None
  else if negb (strings_Contains MongoDb "ssl=true")
          && negb (strings_Contains MongoDb "tls=true")
       then if strings_Contains MongoDb "?"
            then Some (MongoDb ++ "&ssl=true&tlsInsecure=false")%string
            else Some (MongoDb ++ "?ssl=true&tlsInsecure=false")%string
       else Some MongoDb.

(** ** Invariants of the collections *)

(** A stored ranking as [AdminReviewUpdate] writes it: a value in 1..10
    with the name [getRatingName] gives it. *)
Definition rankingAsReviewed (m : Movie) : Prop :=
  match Ranking_ m with
  | None => True
  | Some r => 1 <= RankingValue r <= 10 /\ RankingName r = getRatingName (RankingValue r)
  end.

(** [m] differs from [m0] in the review and the ranking at most. *)
Definition sameButReview (m0 m : Movie) : Prop :=
  ID m = ID m0 /\ ImdbID m = ImdbID m0 /\ Title m = Title m0 /\
  PosterPath m = PosterPath m0 /\ YouTubeID m = YouTubeID m0 /\
  Genre_ m = Genre_ m0.

(** [m] is the submitted [m0] as [InsertOne] stores it: every field as
    submitted, with the "_id" [fresh] when none was submitted. *)
Definition insertedAs (fresh : string) (m0 m : Movie) : Prop :=
  ImdbID m = ImdbID m0 /\ Title m = Title m0 /\
  PosterPath m = PosterPath m0 /\ YouTubeID m = YouTubeID m0 /\
  Genre_ m = Genre_ m0 /\ AdminReview m = AdminReview m0 /\
  Ranking_ m = Ranking_ m0 /\
  (ID m0 <> "" -> ID m = ID m0) /\
  (ID m0 = "" -> ID m = fresh).

(** * Properties *)

(** ** Running a handler symbolically *)

Ltac unfold_handlers :=
  unfold responseOf, traceOf, run,
    RegisterUser, Login, GetMovies, GetMovie, GetTopRatedMovies,
    GetMoviesByGenre, MakeMovies, AdminReviewUpdate, GetRecommendedMovies,
    getUserById, findMovies, FindOneDecode, HashPassword,
    userCollection_CountDocuments, userCollection_InsertOne,
    utils_UpdateAllTokens, movieCollection_InsertOne,
    movieCollection_UpdateOne, initState in *.

Ltac unfold_monad :=
  unfold go, select, JSON, call, bindR in *;
  unfold bind, ret, emit, setThread, getThread, readUsers, readMovies,
    writeUsers, writeMovies in *.

Ltac exec := unfold_handlers; unfold_monad; cbn.

(** Case analysis on what the outside and the externals answer. *)
Ltac split_env :=
  repeat match goal with
    | |- context [match fault ?e ?op with _ => _ end] =>
        destruct (fault e op) eqn:?; cbn
    | |- context [if timer_first ?e then _ else _] =>
        destruct (timer_first e) eqn:?; cbn
    end.

Ltac split_run :=
  repeat match goal with
    | |- context [match fault ?e ?op with _ => _ end] =>
        destruct (fault e op) eqn:?; cbn
    | |- context [if timer_first ?e then _ else _] =>
        destruct (timer_first e) eqn:?; cbn
    | |- context [if errorIs ?e ?s then _ else _] =>
        destruct (errorIs e s) eqn:?; cbn
    | |- context [match find ?p ?l with _ => _ end] =>
        destruct (find p l) eqn:?; cbn
    | |- context [if 0 <? ?n then _ else _] =>
        destruct (0 <? n) eqn:?; cbn
    | |- context [match validateUser ?u with _ => _ end] =>
        destruct (validateUser u) eqn:?; cbn
    | |- context [match CompareHashAndPassword ?h ?p with _ => _ end] =>
        destruct (CompareHashAndPassword h p) eqn:?; cbn
    | |- context [match GenerateAccessToken ?a ?b ?c ?d ?e with _ => _ end] =>
        destruct (GenerateAccessToken a b c d e) eqn:?; cbn
    | |- context [match GenerateRefreshToken ?a ?b ?c ?d ?e with _ => _ end] =>
        destruct (GenerateRefreshToken a b c d e) eqn:?; cbn
    end.

Ltac finish_pattern :=
  try congruence;
  cbn; unfold raceCase;
  repeat match goal with H : timer_first _ = _ |- _ => rewrite H end;
  reflexivity.

(** ** The query layer: filter, sort, limit *)

Section InsertionSort.
Variable le : Movie -> Movie -> bool.
Hypothesis le_total : forall a b, le a b = true \/ le b a = true.
Hypothesis le_trans : forall a b c, le a b = true -> le b c = true -> le a c = true.

Let R := fun a b => le a b = true.

Lemma insertSorted_perm x l : Permutation (x :: l) (insertSorted le x l).
Proof.
  induction l as [|y l IH]; simpl.
  - apply Permutation_refl.
  - destruct (le x y).
    + apply Permutation_refl.
    + eapply Permutation_trans; [apply perm_swap|].
      apply perm_skip. exact IH.
Qed.

Lemma sortMovies_perm l : Permutation l (sortMovies le l).
Proof.
  induction l as [|x l IH]; simpl.
  - apply perm_nil.
  - eapply Permutation_trans; [apply perm_skip, IH|].
    apply insertSorted_perm.
Qed.

Lemma insertSorted_sorted x l :
  StronglySorted R l -> StronglySorted R (insertSorted le x l).
Proof.
  induction 1 as [|y l Hs IH Hy]; simpl.
  - repeat constructor.
  - destruct (le x y) eqn:Hxy.
    + constructor; [constructor; assumption|].
      constructor; [exact Hxy|].
      rewrite Forall_forall in *. intros z Hz.
      apply (le_trans x y z Hxy). apply Hy, Hz.
    + constructor; [exact IH|].
      assert (Hyx : le y x = true)
        by (destruct (le_total x y) as [H'|H']; [congruence|exact H']).
      rewrite Forall_forall in *. intros z Hz.
      apply Permutation_in with (l' := x :: l) in Hz;
        [|apply Permutation_sym, insertSorted_perm].
      destruct Hz as [<-|Hz]; [exact Hyx|apply Hy, Hz].
Qed.

Lemma sortMovies_sorted l : StronglySorted R (sortMovies le l).
Proof.
  induction l as [|x l IH]; simpl.
  - constructor.
  - apply insertSorted_sorted, IH.
Qed.
End InsertionSort.

Lemma keyLe_total a b : keyLe a b = true \/ keyLe b a = true.
Proof.
  destruct a as [x|], b as [y|]; simpl; auto.
  destruct (Z.leb_spec x y); [left; reflexivity|right; apply Z.leb_le; lia].
Qed.

Lemma keyLe_trans a b c : keyLe a b = true -> keyLe b c = true -> keyLe a c = true.
Proof.
  destruct a as [x|], b as [y|], c as [z|]; simpl; try congruence.
  rewrite !Z.leb_le. lia.
Qed.

Lemma before_total d a b : before d a b = true \/ before d b a = true.
Proof. unfold before. destruct (d <? 0); apply keyLe_total. Qed.

Lemma before_trans d a b c :
  before d a b = true -> before d b c = true -> before d a c = true.
Proof.
  unfold before. destruct (d <? 0); intros H1 H2.
  - exact (keyLe_trans _ _ _ H2 H1).
  - exact (keyLe_trans _ _ _ H1 H2).
Qed.

Lemma StronglySorted_firstn {A} (R : A -> A -> Prop) n l :
  StronglySorted R l -> StronglySorted R (firstn n l).
Proof.
  intros H. revert n. induction H as [|x l Hs IH Hx]; intros [|n]; simpl;
    try constructor.
  - apply IH.
  - rewrite Forall_forall in *. intros y Hy. apply Hx.
    rewrite <- (firstn_skipn n l). apply in_or_app. left. exact Hy.
Qed.

Lemma In_firstn {A} n (l : list A) x : In x (firstn n l) -> In x l.
Proof.
  intros H. rewrite <- (firstn_skipn n l). apply in_or_app. left. exact H.
Qed.

Lemma applyLimit_In o l x : In x (applyLimit o l) -> In x l.
Proof.
  unfold applyLimit. destruct (0 <? Limit o); [apply In_firstn|trivial].
Qed.

Lemma applySort_In o l x : In x (applySort o l) <-> In x l.
Proof.
  unfold applySort. destruct (SortRankingValue o) as [d|]; [|reflexivity].
  assert (P : Permutation l (sortMovies (before d) l)) by apply sortMovies_perm.
  split; intros H.
  - apply Permutation_in with (1 := Permutation_sym P), H.
  - apply Permutation_in with (1 := P), H.
Qed.

(** Every document a query yields is in the collection and passes the
    filter. *)
Lemma selectMovies_In rx f o coll m :
  In m (selectMovies rx f o coll) -> In m coll /\ matches rx f m = true.
Proof.
  unfold selectMovies. intros H.
  apply applyLimit_In, applySort_In, filter_In in H. exact H.
Qed.

(** With a positive limit at most that many documents come back. *)
Lemma selectMovies_length rx f o coll :
  0 < Limit o ->
  (List.length (selectMovies rx f o coll) <= Z.to_nat (Limit o))%nat.
Proof.
  intros H. unfold selectMovies, applyLimit.
  apply Z.ltb_lt in H. rewrite H. apply firstn_le_length.
Qed.

Lemma keyLe_descending a b :
  keyLe (rankingValue b) (rankingValue a) = true -> descending a b.
Proof.
  unfold descending.
  destruct (rankingValue b) as [y|], (rankingValue a) as [x|]; simpl;
    try congruence; try trivial.
  apply Z.leb_le.
Qed.

Lemma StronglySorted_impl {A} (R S : A -> A -> Prop) l :
  (forall a b, R a b -> S a b) -> StronglySorted R l -> StronglySorted S l.
Proof.
  intros HRS. induction 1 as [|x l Hs IH Hx]; constructor; [exact IH|].
  apply Forall_impl with (2 := Hx). intros b. apply HRS.
Qed.

Lemma selectMovies_descending rx f d n coll :
  d < 0 ->
  StronglySorted descending (selectMovies rx f (mkFindOptions (Some d) n) coll).
Proof.
  intros Hd. unfold selectMovies, applyLimit, applySort. simpl.
  assert (S : StronglySorted descending
                (sortMovies (before d) (filter (matches rx f) coll))).
  { apply StronglySorted_impl with (R := fun a b => before d a b = true).
    - intros a b. unfold before.
      apply Z.ltb_lt in Hd. rewrite Hd. apply keyLe_descending.
    - apply sortMovies_sorted; [apply before_total|apply before_trans]. }
  destruct (0 <? n); [apply StronglySorted_firstn|]; exact S.
Qed.

Lemma rankingGte_spec v m :
  rankingGte v m = true <-> exists r, Ranking_ m = Some r /\ v <= RankingValue r.
Proof.
  unfold rankingGte, rankingValue. destruct (Ranking_ m) as [r|]; simpl.
  - rewrite Z.leb_le. split.
    + intros H. exists r. auto.
    + intros (r' & E & H). inversion E. subst. exact H.
  - split; [discriminate|]. intros (r' & E & _). discriminate.
Qed.

Lemma inb_spec s l : inb s l = true <-> In s l.
Proof.
  unfold inb. rewrite existsb_exists. split.
  - intros (x & Hx & E). apply String.eqb_eq in E. subst. exact Hx.
  - intros H. exists s. split; [exact H|apply String.eqb_refl].
Qed.

Lemma genreIn_spec names m :
  genreIn names m = true <->
  exists name, In name (map GenreName (Genre_ m)) /\ In name names.
Proof.
  unfold genreIn. rewrite existsb_exists. split.
  - intros (g & Hg & H). apply inb_spec in H.
    exists (GenreName g). split; [apply in_map, Hg|exact H].
  - intros (name & Hn & H). apply in_map_iff in Hn as (g & <- & Hg).
    exists g. split; [exact Hg|apply inb_spec, H].
Qed.

(** What [GetTopRatedMovies] answers, in every environment. *)
Lemma GetTopRatedMovies_response `{X : Externals} env us ms :
  let q := Find (FilterRankingGte 7) (mkFindOptions (Some (-1)) 20) in
  let found := selectMovies regexMatch (FilterRankingGte 7)
                            (mkFindOptions (Some (-1)) 20) ms in
  responseOf (GetTopRatedMovies env) us ms =
    if timer_first env then (408, H_error (errorString "request timeout"))
    else match fault env q with
         | Some e => (500, H_error e)
         | None =>
             match fault env CursorAll with
             | Some e => (500, H_error e)
             | None => (200, H_top_rated found (Z.of_nat (List.length found)) 7)
             end
         end.
Proof.
  exec. split_env; reflexivity.
Qed.

(** C4. For every catalog (and whatever the store and the timer do), the
    movies that [GetTopRatedMovies] lists are movies of the catalog with a
    ranking value of at least 7 (none below 7), they are in descending
    order of ranking value, and there are at most 20 of them. *)
Theorem GetTopRatedMovies_top_rated :
  forall (X : Externals) (env : Env) (us : list User) (ms : list Movie),
    let l := moviesOf (body (responseOf (GetTopRatedMovies env) us ms)) in
    (forall m, In m l ->
       In m ms /\ exists r, Ranking_ m = Some r /\ 7 <= RankingValue r) /\
    StronglySorted descending l /\
    (List.length l <= 20)%nat.
Proof.
  intros X env us ms. rewrite GetTopRatedMovies_response.
  destruct (timer_first env); simpl; [repeat split; try constructor; try lia; contradiction|].
  destruct (fault env _); simpl; [repeat split; try constructor; try lia; contradiction|].
  destruct (fault env _); simpl; [repeat split; try constructor; try lia; contradiction|].
  split; [|split].
  - intros m Hm. apply selectMovies_In in Hm as [Hin Hmatch].
    split; [exact Hin|]. apply rankingGte_spec. exact Hmatch.
  - apply selectMovies_descending. lia.
  - apply (selectMovies_length regexMatch (FilterRankingGte 7)
             (mkFindOptions (Some (-1)) 20) ms). simpl. lia.
Qed.

(** ** Recommendations *)

(** What [GetRecommendedMovies] answers, in every environment. *)
Lemma GetRecommendedMovies_response `{X : Externals} env us ms userID :
  responseOf (GetRecommendedMovies env userID) us ms =
    if (userID =? "")%string
    then (400, H_error (errorString "User ID required"))
    else
      match fault env (FindOneByUserID userID) with
      | Some _ => (404, H_error (errorString "User not found"))
      | None =>
          match find (fun u => (UserID u =? userID)%string) us with
          | None => (404, H_error (errorString "User not found"))
          | Some user =>
              let genreNames := map GenreName (FavouriteGenres user) in
              let f := FilterGenreInRankingGte genreNames 6 in
              let o := mkFindOptions (Some (-1)) 10 in
              let found := selectMovies regexMatch f o ms in
              match genreNames with
              | [] => (200, H_no_favourites "No favorite genres set for user" [] [])
              | _ :: _ =>
                  if timer_first env
                  then (408, H_error (errorString "request timeout"))
                  else match fault env (Find f o) with
                       | Some e => (500, H_error e)
                       | None =>
                           match fault env CursorAll with
                           | Some e => (500, H_error e)
                           | None =>
                               (200, H_recommended found genreNames
                                       (Z.of_nat (List.length found)))
                           end
                       end
              end
          end
      end.
Proof.
  exec. destruct (userID =? "")%string; [reflexivity|]. cbn.
  destruct (fault env (FindOneByUserID userID)); [reflexivity|]. cbn.
  destruct (find _ us) as [user|]; [|reflexivity]. cbn.
  destruct (FavouriteGenres user) as [|g gs]; [reflexivity|]. cbn.
  split_env; reflexivity.
Qed.

(** C5. For a user (the one the handler loads by id) with a non-empty list
    of favourite genres, every movie that [GetRecommendedMovies] lists is a
    movie of the catalog that carries a genre name among the user's
    favourite genre names and has a ranking value of at least 6; the list is
    in descending order of ranking value and has at most 10 items. *)
Theorem GetRecommendedMovies_recommended :
  forall (X : Externals) (env : Env) (us : list User) (ms : list Movie)
         (userID : string) (user : User),
    find (fun u => (UserID u =? userID)%string) us = Some user ->
    FavouriteGenres user <> [] ->
    let l := moviesOf (body (responseOf (GetRecommendedMovies env userID) us ms)) in
    (forall m, In m l ->
       In m ms /\
       (exists name, In name (map GenreName (Genre_ m)) /\
                     In name (map GenreName (FavouriteGenres user))) /\
       (exists r, Ranking_ m = Some r /\ 6 <= RankingValue r)) /\
    StronglySorted descending l /\
    (List.length l <= 10)%nat.
Proof.
  intros X env us ms userID user Hfind Hfav.
  rewrite GetRecommendedMovies_response.
  assert (T : forall P : Movie -> Prop,
             (forall m, In m (@nil Movie) -> P m) /\
             StronglySorted descending [] /\ (List.length (@nil Movie) <= 10)%nat).
  { intros P. split; [intros m []|]. split; [constructor|simpl; lia]. }
  destruct (userID =? "")%string; [apply T|].
  destruct (fault env (FindOneByUserID userID)); [apply T|].
  rewrite Hfind. cbv zeta.
  destruct (map GenreName (FavouriteGenres user)) as [|n ns] eqn:Hnames;
    [destruct (FavouriteGenres user); [congruence|discriminate]|].
  rewrite <- Hnames. clear Hnames n ns.
  destruct (timer_first env); [apply T|].
  destruct (fault env (Find _ _)); [apply T|].
  destruct (fault env CursorAll); [apply T|].
  simpl. split; [|split].
  - intros m Hm. apply selectMovies_In in Hm as [Hin Hmatch].
    simpl in Hmatch. apply andb_true_iff in Hmatch as [Hg Hr].
    split; [exact Hin|]. split.
    + apply genreIn_spec, Hg.
    + apply rankingGte_spec, Hr.
  - apply selectMovies_descending. lia.
  - apply (selectMovies_length regexMatch _ (mkFindOptions (Some (-1)) 10) ms).
    simpl. lia.
Qed.

(** C5 at [alice] (favourite genre "Drama") on the sample catalog. *)
Lemma GetRecommendedMovies_recommended_witness :
  map ImdbID (moviesOf (body (responseOf
       (@GetRecommendedMovies sampleExternals calmEnv "u1") [alice; bob] catalog)))
    = ["tt5"; "tt3"; "tt1"] /\
  (forall m,
     In m (moviesOf (body (responseOf
       (@GetRecommendedMovies sampleExternals calmEnv "u1") [alice; bob] catalog))) ->
     In m catalog /\
     (exists name, In name (map GenreName (Genre_ m)) /\
                   In name (map GenreName (FavouriteGenres alice))) /\
     (exists r, Ranking_ m = Some r /\ 6 <= RankingValue r)) /\
  StronglySorted descending (moviesOf (body (responseOf
       (@GetRecommendedMovies sampleExternals calmEnv "u1") [alice; bob] catalog))) /\
  (List.length (moviesOf (body (responseOf
       (@GetRecommendedMovies sampleExternals calmEnv "u1") [alice; bob] catalog)))
   <= 10)%nat.
Proof.
  split; [reflexivity|].
  apply (GetRecommendedMovies_recommended sampleExternals calmEnv [alice; bob]
           catalog "u1" alice).
  - reflexivity.
  - discriminate.
Defined.

(** C6. For a user that exists (the lookup by its non-empty id returns it)
    with an empty list of favourite genres, [GetRecommendedMovies] answers
    200 with the message "No favorite genres set for user", an empty movie
    list and an empty genre list.  It does so on the handler's own path:
    after the lookup nothing is called on a collection, no worker is
    started, and the collections are as before. *)
Theorem GetRecommendedMovies_no_favourites :
  forall (X : Externals) (env : Env) (us : list User) (ms : list Movie)
         (userID : string) (user : User),
    userID <> "" ->
    fault env (FindOneByUserID userID) = None ->
    find (fun u => (UserID u =? userID)%string) us = Some user ->
    FavouriteGenres user = [] ->
    run (GetRecommendedMovies env userID) us ms =
      ((StatusOK, H_no_favourites "No favorite genres set for user" [] []),
       mkState us ms HandlerThread
         [EvStore HandlerThread (FindOneByUserID userID);
          EvJSON 200 (H_no_favourites "No favorite genres set for user" [] [])]).
Proof.
  intros X env us ms userID user Hid Hfault Hfind Hfav.
  apply String.eqb_neq in Hid.
  exec. rewrite Hid. cbn. rewrite Hfault. cbn. rewrite Hfind. cbn.
  rewrite Hfav. reflexivity.
Qed.

(** C6 at [bob], who has no favourite genre. *)
Lemma GetRecommendedMovies_no_favourites_witness :
  run (@GetRecommendedMovies sampleExternals calmEnv "u2") [alice; bob] catalog =
    ((200, H_no_favourites "No favorite genres set for user" [] []),
     mkState [alice; bob] catalog HandlerThread
       [EvStore HandlerThread (FindOneByUserID "u2");
        EvJSON 200 (H_no_favourites "No favorite genres set for user" [] [])]).
Proof.
  apply (GetRecommendedMovies_no_favourites sampleExternals calmEnv [alice; bob]
           catalog "u2" bob).
  - discriminate.
  - reflexivity.
  - reflexivity.
  - reflexivity.
Defined.

(** ** Registration *)

Lemma count_positive (p : User -> bool) us u :
  In u us -> p u = true -> (0 <? Z.of_nat (List.length (filter p us))) = true.
Proof.
  intros Hin Hp. apply Z.ltb_lt.
  assert (H : In u (filter p us)) by (apply filter_In; auto).
  destruct (filter p us); [contradiction|simpl; lia].
Qed.

(** C3 as stated fails: a registration with [alice]'s email and a
    password that bcrypt refuses (73 bytes) is answered 500 "Failed to hash
    password", not 409: the handler hashes before it starts the worker, so
    the email is never looked at. *)
Lemma RegisterUser_duplicate_email_unhashable :
  let user := mkUser "" "Al" "Ames" "alice@example.com" longPassword "user"
                     0 0 "" "" [] in
  let out := run (@RegisterUser sampleExternals calmEnv (Some user))
                 [alice; bob] catalog in
  In alice [alice; bob] /\
  Email alice = Email user /\
  String.length longPassword = 73%nat /\
  sampleHash longPassword
    = Err (errorString "bcrypt: password length exceeds 72 bytes") /\
  out = ((500, H_error (errorString "Failed to hash password")),
         mkState [alice; bob] catalog HandlerThread
           [EvJSON 500 (H_error (errorString "Failed to hash password"))]) /\
  status (fst out) <> StatusConflict.
Proof.
  cbv zeta. split; [left; reflexivity|].
  repeat split; try reflexivity. discriminate.
Qed.

(** C3, amended.  A registration whose email is the email of a user
    already in the collection never inserts: the collection is as before,
    no [InsertOne] is issued and the answer is never 201.  The answer is
    409 with "User with this email already exists" when the password
    hashes, the count query is answered and the worker reports before the
    timer.  When bcrypt refuses the password the answer is 500 "Failed to
    hash password", written before a worker is started or a collection is
    called; when the count query fails the answer carries the text of its
    error, with status 500 (409 if the text is the one above); when the
    timer is first it is 408. *)
Theorem RegisterUser_duplicate_email :
  forall (X : Externals) (env : Env) (us : list User) (ms : list Movie)
         (user existing : User),
    In existing us ->
    Email existing = Email user ->
    let out := run (RegisterUser env (Some user)) us ms in
    users (snd out) = us /\
    (forall u, ~ In (EvStore WorkerThread (InsertOneUser u)) (trace (snd out))) /\
    status (fst out) <> StatusCreated /\
    (forall hashedPassword,
       GenerateFromPassword (Password user) = Ok hashedPassword ->
       fault env (CountDocuments (Email user)) = None ->
       timer_first env = false ->
       fst out = (StatusConflict,
                  H_error (errorString "User with this email already exists"))) /\
    (forall err,
       GenerateFromPassword (Password user) = Err err ->
       out = ((StatusInternalServerError,
               H_error (errorString "Failed to hash password")),
              mkState us ms HandlerThread
                [EvJSON 500 (H_error (errorString "Failed to hash password"))])) /\
    (forall hashedPassword e,
       GenerateFromPassword (Password user) = Ok hashedPassword ->
       fault env (CountDocuments (Email user)) = Some e ->
       timer_first env = false ->
       fst out = (if errorIs e "User with this email already exists"
                  then StatusConflict else 500,
                  H_error e)) /\
    (forall hashedPassword,
       GenerateFromPassword (Password user) = Ok hashedPassword ->
       timer_first env = true ->
       fst out = (408, H_error (errorString "request timeout"))).
Proof.
  intros X env us ms user existing Hin Hemail.
  assert (Hc : (0 <? Z.of_nat (List.length
                 (filter (fun u => (Email u =? Email user)%string) us))) = true).
  { apply count_positive with existing; [exact Hin|].
    rewrite Hemail. apply String.eqb_refl. }
  exec. destruct (GenerateFromPassword (Password user)) as [h|e] eqn:Hh; cbn.
  - destruct (fault env (CountDocuments (Email user))) as [e|] eqn:Hf; cbn.
    + destruct (timer_first env) eqn:Ht; cbn;
        [|destruct (errorIs e _) eqn:He; cbn];
        (repeat split; try discriminate;
         try (intros u [H|[H|[H|[H|[H|[]]]]]]; discriminate);
         try (intros; congruence);
         try (intros h0 e0 _ Hs _; injection Hs as <-; cbn;
              rewrite He; reflexivity)).
    + rewrite Hc. cbn.
      destruct (timer_first env) eqn:Ht; cbn;
        (repeat split; try discriminate;
         try (intros u [H|[H|[H|[H|[H|[]]]]]]; discriminate);
         try (intros; congruence)).
  - repeat split; try discriminate.
    intros u [H|[]]; discriminate.
Qed.

(** C3, amended, at a second registration with [alice]'s email: 409 with a
    password that hashes, 500 with one that does not. *)
Lemma RegisterUser_duplicate_email_witness :
  fst (run (@RegisterUser sampleExternals calmEnv
              (Some (mkUser "" "Al" "Ames" "alice@example.com" "pw" "user"
                            0 0 "" "" [])))
           [alice; bob] catalog)
  = (409, H_error (errorString "User with this email already exists")) /\
  fst (run (@RegisterUser sampleExternals calmEnv
              (Some (mkUser "" "Al" "Ames" "alice@example.com" longPassword
                            "user" 0 0 "" "" [])))
           [alice; bob] catalog)
  = (500, H_error (errorString "Failed to hash password")).
Proof.
  assert (Hin : In alice [alice; bob]) by (left; reflexivity).
  split.
  - exact (proj1 (proj2 (proj2 (proj2
      (RegisterUser_duplicate_email sampleExternals calmEnv [alice; bob] catalog
         (mkUser "" "Al" "Ames" "alice@example.com" "pw" "user" 0 0 "" "" [])
         alice Hin eq_refl))))
      "$2a$10$pw" eq_refl eq_refl eq_refl).
  - exact (f_equal fst (proj1 (proj2 (proj2 (proj2 (proj2
      (RegisterUser_duplicate_email sampleExternals calmEnv [alice; bob] catalog
         (mkUser "" "Al" "Ames" "alice@example.com" longPassword "user"
                 0 0 "" "" [])
         alice Hin eq_refl)))))
      (errorString "bcrypt: password length exceeds 72 bytes") eq_refl)).
Defined.

(** ** The admin review *)

Example getRatingName_examples :
  map getRatingName [11; 10; 9; 8; 7; 6; 5; 4; 3; 2; 1; 0; -1]
  = ["excellent"; "excellent"; "excellent"; "good"; "good"; "average";
     "average"; "poor"; "poor"; "terrible"; "terrible"; "terrible"; "terrible"].
Proof. reflexivity. Qed.

Lemma getRatingName_table r : rankingNameTable r (getRatingName r).
Proof.
  unfold rankingNameTable, getRatingName.
  destruct (Z.geb_spec r 9); [repeat split; intros; (reflexivity || lia)|].
  destruct (Z.geb_spec r 7); [repeat split; intros; (reflexivity || lia)|].
  destruct (Z.geb_spec r 5); [repeat split; intros; (reflexivity || lia)|].
  destruct (Z.geb_spec r 3); repeat split; intros; (reflexivity || lia).
Qed.

Lemma validateRating_ok r : 1 <= r <= 10 -> validateRating "Rating" r = [].
Proof.
  intros H. unfold validateRating.
  destruct (Z.eqb_spec r 0); [lia|].
  destruct (Z.ltb_spec r 1); [lia|].
  destruct (Z.ltb_spec 10 r); [lia|reflexivity].
Qed.

Lemma validateRating_out r :
  r < 1 \/ 10 < r -> exists tag, validateRating "Rating" r = [("Rating", tag)].
Proof.
  intros H. unfold validateRating.
  destruct (Z.eqb_spec r 0); [eexists; reflexivity|].
  destruct (Z.ltb_spec r 1); [eexists; reflexivity|].
  destruct (Z.ltb_spec 10 r); [eexists; reflexivity|lia].
Qed.

Lemma updateFirst_none p f l :
  (forall m, In m l -> p m = false) -> updateFirst p f l = (l, 0).
Proof.
  induction l as [|x l IH]; intros H; [reflexivity|]. simpl.
  rewrite (H x (or_introl eq_refl)).
  rewrite IH; [reflexivity|]. intros m Hm. apply H. right. exact Hm.
Qed.

Lemma updateFirst_matched p f l :
  (exists m, In m l /\ p m = true) -> snd (updateFirst p f l) = 1.
Proof.
  induction l as [|x l IH]; intros (m & Hin & Hp).
  - destruct Hin.
  - simpl. destruct (p x) eqn:Hx; [reflexivity|].
    destruct Hin as [->|Hin]; [congruence|].
    destruct (updateFirst p f l) as [l' n] eqn:E. simpl in *.
    apply IH. exists m. auto.
Qed.

(** C2. A call of [AdminReviewUpdate] for a movie id (the route parameter
    is not empty) with the integer rating [r].  [getRatingName r] follows
    the threshold table.  If [r] is in 1..10, the ranking name the answer
    carries, and the one that an update stores, is [getRatingName r]: the
    movies are either as before or the first movie with that id now
    carries the review and the ranking ([r], [getRatingName r]); and when
    the review text is present, the update is answered and a movie has the
    id, the answer is 200 with that name and the update is stored.  If [r]
    is outside 1..10 (0 and 11 among them), the answer is the 400
    "Validation failed" answer, nothing is called on a collection, and the
    collections are as before. *)
Theorem AdminReviewUpdate_rating :
  forall (env : Env) (us : list User) (ms : list Movie)
         (movieId admin_review : string) (r : Z),
    movieId <> "" ->
    let name := getRatingName r in
    let updated :=
      updateFirst (fun m => (ImdbID m =? movieId)%string)
                  (setReview admin_review (mkRanking r name)) ms in
    let out := run (AdminReviewUpdate env movieId
                      (Some (mkReviewReq admin_review r))) us ms in
    rankingNameTable r name /\
    (1 <= r <= 10 ->
       (forall msg rev rating ranking_name,
          body (fst out) = H_review msg rev rating ranking_name ->
          rating = r /\ ranking_name = name) /\
       (movies (snd out) = ms \/ movies (snd out) = fst updated) /\
       (admin_review <> "" ->
        fault env (UpdateOne movieId admin_review (mkRanking r name)) = None ->
        (exists m, In m ms /\ ImdbID m = movieId) ->
        fst out = (StatusOK,
                   H_review "Review updated successfully" admin_review r name) /\
        movies (snd out) = fst updated)) /\
    (r < 1 \/ 10 < r ->
       exists err,
         fst out = (StatusBadRequest, H_validation err) /\
         snd out = mkState us ms HandlerThread
                     [EvJSON StatusBadRequest (H_validation err)]).
Proof.
  intros env us ms movieId admin_review r Hid name updated out.
  apply String.eqb_neq in Hid.
  split; [apply getRatingName_table|]. split.
  - intros Hr. subst out updated. exec. rewrite Hid. cbn.
    unfold validateReviewReq, validateString_required. cbn.
    rewrite (validateRating_ok r Hr).
    destruct (admin_review =? "")%string eqn:Hrev; cbn.
    + split; [intros ? ? ? ? H; discriminate H|].
      split; [left; reflexivity|].
      intros Hne. apply String.eqb_neq in Hne. congruence.
    + fold name.
      destruct (fault env (UpdateOne movieId admin_review (mkRanking r name)))
        as [e|] eqn:Hf; cbn.
      * split; [intros ? ? ? ? H; discriminate H|].
        split; [left; reflexivity|]. intros _ H. discriminate H.
      * pose proof (updateFirst_matched
                      (fun m => (ImdbID m =? movieId)%string)
                      (setReview admin_review (mkRanking r name)) ms) as Hm.
        destruct (updateFirst _ _ ms) as [ms' matched] eqn:E. cbn in *.
        destruct (matched =? 0) eqn:Hz; cbn.
        -- split; [intros ? ? ? ? H; discriminate H|].
           split; [right; reflexivity|]. intros _ _ (m & Hin & Hm').
           rewrite Hm in Hz; [discriminate Hz|].
           exists m. split; [exact Hin|]. rewrite Hm'. apply String.eqb_refl.
        -- split; [intros ? ? ? ? H; inversion H; subst; auto|].
           split; [right; reflexivity|]. intros _ _ _. split; reflexivity.
  - intros Hr. subst out. exec. rewrite Hid. cbn.
    unfold validateReviewReq. cbn.
    destruct (validateRating_out r Hr) as [tag ->].
    destruct (validateString_required "AdminReview" admin_review); cbn;
      eexists; split; reflexivity.
Qed.

(** C2 at the movie "tt1" of the sample catalog: rating 9 is stored and
    returned as "excellent"; ratings 0 and 11 are refused. *)
Lemma AdminReviewUpdate_rating_witness :
  let at_ r := AdminReviewUpdate calmEnv "tt1" (Some (mkReviewReq "seen" r)) in
  (fst (run (at_ 9) [alice; bob] catalog)
     = (200, H_review "Review updated successfully" "seen" 9 "excellent") /\
   map Ranking_ (movies (snd (run (at_ 9) [alice; bob] catalog)))
     = map Ranking_ (film "tt1" [drama] (Some 9) :: tl catalog)) /\
  (exists err,
     fst (run (at_ 0) [alice; bob] catalog) = (400, H_validation err) /\
     snd (run (at_ 0) [alice; bob] catalog)
       = mkState [alice; bob] catalog HandlerThread [EvJSON 400 (H_validation err)]) /\
  (exists err,
     fst (run (at_ 11) [alice; bob] catalog) = (400, H_validation err) /\
     snd (run (at_ 11) [alice; bob] catalog)
       = mkState [alice; bob] catalog HandlerThread [EvJSON 400 (H_validation err)]).
Proof.
  cbv zeta.
  assert (Hid : "tt1" <> "") by discriminate.
  split; [|split].
  - assert (Hr : 1 <= 9 <= 10) by lia.
    destruct (proj2 (proj2 (proj1 (proj2
                (AdminReviewUpdate_rating calmEnv [alice; bob] catalog
                   "tt1" "seen" 9 Hid)) Hr))) as [Hresp Hmovies].
    + discriminate.
    + reflexivity.
    + exists (film "tt1" [drama] (Some 6)). split; [left|]; reflexivity.
    + split; [exact Hresp|]. rewrite Hmovies. reflexivity.
  - apply (proj2 (proj2 (AdminReviewUpdate_rating calmEnv
                           [alice; bob] catalog "tt1" "seen" 0 Hid))).
    left. lia.
  - apply (proj2 (proj2 (AdminReviewUpdate_rating calmEnv
                           [alice; bob] catalog "tt1" "seen" 11 Hid))).
    right. lia.
Defined.

(** ** Login *)

Section LoginFacts.
Context `{X : Externals}.
Variables (env : Env) (us : list User) (ms : list Movie) (l : UserLogin).

Let byEmail := fun u => (Email u =? LoginEmail l)%string.

(** The run of a login that the worker ends with [msg] on [errorChan]
    after the lookup alone. *)
Let refused (msg : string) : Response * State :=
  let s := if timer_first env then CaseTimeAfter else CaseError in
  let r := if timer_first env
           then (408, H_error (errorString "timeout"))
           else (401, H_error (errorString msg)) in
  (r, mkState us ms HandlerThread
        [EvGo; EvStore WorkerThread (FindOneByEmail (LoginEmail l));
         EvSend errorChan; EvSelect s; EvJSON (fst r) (snd r)]).

Lemma Login_unknown_email :
  fault env (FindOneByEmail (LoginEmail l)) = None ->
  find byEmail us = None ->
  run (Login env (Some l)) us ms = refused "Invalid credentials".
Proof.
  intros Hf Hn. subst refused. exec. rewrite Hf. cbn.
  fold byEmail. rewrite Hn. cbn.
  destruct (timer_first env); reflexivity.
Qed.

Lemma Login_wrong_password u :
  fault env (FindOneByEmail (LoginEmail l)) = None ->
  find byEmail us = Some u ->
  CompareHashAndPassword (Password u) (LoginPassword l) <> None ->
  run (Login env (Some l)) us ms = refused "Wrong Password".
Proof.
  intros Hf Hn Hc. subst refused. exec. rewrite Hf. cbn.
  fold byEmail. rewrite Hn. cbn.
  destruct (CompareHashAndPassword (Password u) (LoginPassword l));
    [|congruence]. cbn.
  destruct (timer_first env); reflexivity.
Qed.

End LoginFacts.

(** C1, amended.  For a login that the store answers and the worker
    reports before the timer: an email that no user has is answered 401
    with the text "Invalid credentials"; the email of a user with a
    password that does not verify is answered 401 with the text "Wrong
    Password".  The status is the same, the two texts differ. *)
Theorem Login_failure_texts :
  forall (X : Externals) (env : Env) (us : list User) (ms : list Movie)
         (l : UserLogin),
    fault env (FindOneByEmail (LoginEmail l)) = None ->
    timer_first env = false ->
    (find (fun u => (Email u =? LoginEmail l)%string) us = None ->
     responseOf (Login env (Some l)) us ms
       = (401, H_error (errorString "Invalid credentials"))) /\
    (forall u,
       find (fun u => (Email u =? LoginEmail l)%string) us = Some u ->
       CompareHashAndPassword (Password u) (LoginPassword l) <> None ->
       responseOf (Login env (Some l)) us ms
         = (401, H_error (errorString "Wrong Password"))) /\
    H_error (errorString "Invalid credentials")
      <> H_error (errorString "Wrong Password").
Proof.
  intros X env us ms l Hf Ht. split; [|split].
  - intros Hn. unfold responseOf.
    rewrite (Login_unknown_email env us ms l Hf Hn). cbn. rewrite Ht. reflexivity.
  - intros u Hn Hc. unfold responseOf.
    rewrite (Login_wrong_password env us ms l u Hf Hn Hc). cbn. rewrite Ht.
    reflexivity.
  - discriminate.
Qed.

(** C1, amended, on the sample data: a login with an email nobody has, and
    a login as [alice] with a wrong password. *)
Lemma Login_failure_texts_witness :
  responseOf (@Login sampleExternals calmEnv
                (Some (mkUserLogin "nobody@example.com" "secret")))
             [alice; bob] catalog
    = (401, H_error (errorString "Invalid credentials")) /\
  responseOf (@Login sampleExternals calmEnv
                (Some (mkUserLogin "alice@example.com" "wrong")))
             [alice; bob] catalog
    = (401, H_error (errorString "Wrong Password")).
Proof.
  split.
  - apply (proj1 (Login_failure_texts sampleExternals calmEnv [alice; bob]
                    catalog (mkUserLogin "nobody@example.com" "secret")
                    eq_refl eq_refl)).
    reflexivity.
  - apply (proj1 (proj2 (Login_failure_texts sampleExternals calmEnv
                           [alice; bob] catalog
                           (mkUserLogin "alice@example.com" "wrong")
                           eq_refl eq_refl)) alice).
    + reflexivity.
    + discriminate.
Defined.

(** C1 as stated fails: with [alice] registered, a login with an email
    nobody has and a login with [alice]'s email and a wrong password are
    both refused, with different texts. *)
Lemma Login_failure_texts_differ :
  let unknown := responseOf (@Login sampleExternals calmEnv
                    (Some (mkUserLogin "nobody@example.com" "secret")))
                    [alice; bob] catalog in
  let wrong := responseOf (@Login sampleExternals calmEnv
                    (Some (mkUserLogin "alice@example.com" "wrong")))
                    [alice; bob] catalog in
  find (fun u => (Email u =? "nobody@example.com")%string) [alice; bob] = None /\
  find (fun u => (Email u =? "alice@example.com")%string) [alice; bob] = Some alice /\
  sampleCompare (Password alice) "wrong" <> None /\
  unknown = (401, H_error (errorString "Invalid credentials")) /\
  wrong = (401, H_error (errorString "Wrong Password")) /\
  body unknown <> body wrong.
Proof.
  cbv zeta. repeat split; try reflexivity; discriminate.
Qed.

(** C10. When the lookup of a login fails with an error other than "no
    documents", the worker does not stop: its next step is
    [bcrypt.CompareHashAndPassword] on the hash of the zero-valued user
    record (the empty string) and the submitted password, and the verdict
    of that comparison decides the run.  Refused, as bcrypt refuses an
    empty hash: the worker sends "Wrong Password" on [errorChan] after the
    one call on the collection, the collections are as before, and the
    answer is 401 "Wrong Password" when the worker reports before the
    timer (408 otherwise).  Were it accepted, the worker would go on to the
    tokens and [UpdateAllTokens] for the zero-valued record and the answer
    would be 200.  Whatever the verdict, the answer is never 500. *)
Theorem Login_lookup_error_is_unauthorized :
  forall (X : Externals) (env : Env) (us : list User) (ms : list Movie)
         (l : UserLogin) (e : error),
    fault env (FindOneByEmail (LoginEmail l)) = Some e ->
    let out := run (Login env (Some l)) us ms in
    let verdict := CompareHashAndPassword "" (LoginPassword l) in
    Password zeroUser = "" /\
    (verdict <> None ->
     let r := if timer_first env
              then (408, H_error (errorString "timeout"))
              else (401, H_error (errorString "Wrong Password")) in
     out = (r, mkState us ms HandlerThread
                 [EvGo; EvStore WorkerThread (FindOneByEmail (LoginEmail l));
                  EvSend errorChan;
                  EvSelect (if timer_first env then CaseTimeAfter else CaseError);
                  EvJSON (fst r) (snd r)])) /\
    (verdict = None ->
     forall token refreshToken,
       GenerateAccessToken "" "" "" "" "" = Ok token ->
       GenerateRefreshToken "" "" "" "" "" = Ok refreshToken ->
       fault env (UpdateAllTokens "" token refreshToken) = None ->
       timer_first env = false ->
       let response := mkUserResponse "" "" "" "" "" token refreshToken [] in
       fst out = (200, H_login response) /\
       trace (snd out) =
         [EvGo; EvStore WorkerThread (FindOneByEmail (LoginEmail l));
          EvStore WorkerThread (UpdateAllTokens "" token refreshToken);
          EvSend resultChan; EvSelect CaseResult;
          EvJSON 200 (H_login response)]) /\
    status (fst out) <> StatusInternalServerError.
Proof.
  intros X env us ms l e Hf out verdict. subst out verdict.
  split; [reflexivity|].
  exec. rewrite Hf. cbn.
  destruct (CompareHashAndPassword "" (LoginPassword l)) as [refusal|] eqn:Hc; cbn.
  - split; [|split].
    + intros _. destruct (timer_first env); reflexivity.
    + intros H. discriminate H.
    + destruct (timer_first env); discriminate.
  - split; [|split].
    + intros H. exfalso. apply H. reflexivity.
    + intros _ token refreshToken Ha Hr Hu Ht.
      rewrite Ha. cbn. rewrite Hr. cbn. rewrite Hu. cbn. rewrite Ht. cbn.
      split; reflexivity.
    + split_run; discriminate.
Qed.

(** C10 with the lookup failing for a login as [alice]: 401 with the
    sample bcrypt, which refuses the empty hash, and 200 for the
    zero-valued record with a comparison that accepts everything. *)
Lemma Login_lookup_error_is_unauthorized_witness :
  fst (run (@Login sampleExternals lookupDownEnv
              (Some (mkUserLogin "alice@example.com" "secret")))
           [alice; bob] catalog)
  = (401, H_error (errorString "Wrong Password")) /\
  fst (run (@Login (Build_Externals sampleHash (fun _ _ => None)
                      (fun email _ _ _ _ => Ok ("access." ++ email)%string)
                      (fun email _ _ _ _ => Ok ("refresh." ++ email)%string)
                      sampleValidateUser sampleValidateMovie containsStr)
                   lookupDownEnv
              (Some (mkUserLogin "alice@example.com" "secret")))
           [alice; bob] catalog)
  = (200, H_login (mkUserResponse "" "" "" "" "" "access." "refresh." [])).
Proof.
  assert (Hrefused : sampleCompare "" "secret" <> None) by discriminate.
  split.
  - exact (f_equal fst
             (proj1 (proj2
                (Login_lookup_error_is_unauthorized sampleExternals lookupDownEnv
                   [alice; bob] catalog (mkUserLogin "alice@example.com" "secret")
                   (errorString "server selection error") eq_refl))
                Hrefused)).
  - exact (proj1
             (proj1 (proj2 (proj2
                (Login_lookup_error_is_unauthorized
                   (Build_Externals sampleHash (fun _ _ => None)
                      (fun email _ _ _ _ => Ok ("access." ++ email)%string)
                      (fun email _ _ _ _ => Ok ("refresh." ++ email)%string)
                      sampleValidateUser sampleValidateMovie containsStr)
                   lookupDownEnv
                   [alice; bob] catalog (mkUserLogin "alice@example.com" "secret")
                   (errorString "server selection error") eq_refl)))
                eq_refl "access." "refresh." eq_refl eq_refl eq_refl eq_refl)).
Defined.

(** ** Where the work runs: worker, race, answer *)

(** C7 as stated fails: a registration whose populated record breaks a
    field constraint (here the first name is missing) is refused by the
    validator inside the worker, after the worker was started and after
    its count query; the answer is 500 with the validator's text. *)
Lemma RegisterUser_validates_in_worker :
  let user := mkUser "" "" "Ames" "al@example.com" "pw" "user" 0 0 "" "" [] in
  let out := run (@RegisterUser sampleExternals calmEnv (Some user))
                 [alice; bob] catalog in
  sampleValidateUser (stamp calmEnv user "$2a$10$pw")
    = Some (ValidationErrors [("FirstName", "required")]) /\
  fst out = (500, H_error (ValidationErrors [("FirstName", "required")])) /\
  trace (snd out) =
    [EvGo; EvStore WorkerThread (CountDocuments "al@example.com");
     EvSend errorChan; EvSelect CaseError;
     EvJSON 500 (H_error (ValidationErrors [("FirstName", "required")]))] /\
  synchronous (trace (snd out)) = false.
Proof.
  cbv zeta. repeat split; reflexivity.
Qed.

(** C7, amended.  A body that does not bind ([RegisterUser], [Login],
    [MakeMovies], [AdminReviewUpdate]), a missing route parameter
    ([GetMoviesByGenre], [AdminReviewUpdate], [GetRecommendedMovies]) and a
    field-constraint violation in [MakeMovies] or [AdminReviewUpdate] are
    answered 400 at once: the answer is the only event of the request, no
    worker is started and nothing is called on a collection.
    [RegisterUser] checks the field constraints of the populated record
    inside the worker, after the count query: a violation goes through
    [errorChan] and is answered 500 (408 when the timer is first). *)
Theorem validation_before_worker :
  forall (X : Externals) (env : Env) (us : list User) (ms : list Movie),
    let at_once (out : Response * State) (b : Body) :=
      out = ((400, b), mkState us ms HandlerThread [EvJSON 400 b]) in
    at_once (run (RegisterUser env None) us ms)
            (H_error (errorString "Invalid JSON")) /\
    at_once (run (Login env None) us ms)
            (H_error (errorString "Invalid JSON")) /\
    at_once (run (MakeMovies env None) us ms)
            (H_error (errorString "Invalid JSON")) /\
    (forall movieId, movieId <> "" ->
       at_once (run (AdminReviewUpdate env movieId None) us ms)
               (H_error (errorString "Invalid request data"))) /\
    at_once (run (GetMoviesByGenre env "") us ms)
            (H_error (errorString "Genre parameter required")) /\
    (forall req,
       at_once (run (AdminReviewUpdate env "" req) us ms)
               (H_error (errorString "Movie ID required"))) /\
    at_once (run (GetRecommendedMovies env "") us ms)
            (H_error (errorString "User ID required")) /\
    (forall movie err,
       validateMovie movie = Some err ->
       at_once (run (MakeMovies env (Some movie)) us ms) (H_validation err)) /\
    (forall movieId req err,
       movieId <> "" ->
       validateReviewReq req = Some err ->
       at_once (run (AdminReviewUpdate env movieId (Some req)) us ms)
               (H_validation err)) /\
    (forall user hashedPassword fs,
       GenerateFromPassword (Password user) = Ok hashedPassword ->
       fault env (CountDocuments (Email user)) = None ->
       (forall u, In u us -> Email u <> Email user) ->
       validateUser (stamp env user hashedPassword) = Some (ValidationErrors fs) ->
       let r := if timer_first env
                then (408, H_error (errorString "request timeout"))
                else (500, H_error (ValidationErrors fs)) in
       run (RegisterUser env (Some user)) us ms =
         (r, mkState us ms HandlerThread
               [EvGo; EvStore WorkerThread (CountDocuments (Email user));
                EvSend errorChan;
                EvSelect (if timer_first env then CaseTimeAfter else CaseError);
                EvJSON (fst r) (snd r)])).
Proof.
  intros X env us ms at_once. subst at_once. cbv beta.
  repeat match goal with |- _ /\ _ => split end; try reflexivity.
  - intros movieId Hid. apply String.eqb_neq in Hid. exec. rewrite Hid. reflexivity.
  - intros movie err Hv. exec. rewrite Hv. reflexivity.
  - intros movieId req err Hid Hv. apply String.eqb_neq in Hid.
    exec. rewrite Hid. cbn. rewrite Hv. reflexivity.
  - intros user h fs Hh Hf Hnew Hv. exec. rewrite Hh. cbn. rewrite Hf. cbn.
    assert (Hz : filter (fun u => (Email u =? Email user)%string) us = []).
    { clear -Hnew. induction us as [|u us' IH]; [reflexivity|]. simpl.
      destruct (String.eqb_spec (Email u) (Email user)) as [E|_].
      - exfalso. apply (Hnew u); [left; reflexivity|exact E].
      - apply IH. intros u' Hu'. apply Hnew. right. exact Hu'. }
    rewrite Hz. cbn. rewrite Hv. cbn.
    destruct (timer_first env); reflexivity.
Qed.

(** C7, amended, on the sample data: a movie without a title is refused
    before anything is started. *)
Lemma validation_before_worker_witness :
  run (@MakeMovies sampleExternals calmEnv
         (Some (mkMovie "" "tt9" "" "https://example.com/p.jpg" "yt" [drama]
                        None None)))
      [alice; bob] catalog
  = ((400, H_validation (ValidationErrors [("Title", "required")])),
     mkState [alice; bob] catalog HandlerThread
       [EvJSON 400 (H_validation (ValidationErrors [("Title", "required")]))]).
Proof.
  apply (proj1 (proj2 (proj2 (proj2 (proj2 (proj2 (proj2 (proj2
           (validation_before_worker sampleExternals calmEnv [alice; bob]
              catalog))))))))).
  reflexivity.
Defined.

(** C8 as stated fails: [AdminReviewUpdate] calls [UpdateOne] on its own
    path; no worker is started and nothing is raced, so even with the
    timer first the answer is the update's (200 here), not 408. *)
Lemma AdminReviewUpdate_calls_store_itself :
  let h := AdminReviewUpdate lateEnv "tt1" (Some (mkReviewReq "seen" 7)) in
  timer_first lateEnv = true /\
  run h [alice; bob] [film "tt1" [drama] (Some 6)] =
    ((200, H_review "Review updated successfully" "seen" 7 "good"),
     mkState [alice; bob]
       [setReview "seen" (mkRanking 7 "good") (film "tt1" [drama] (Some 6))]
       HandlerThread
       [EvStore HandlerThread (UpdateOne "tt1" "seen" (mkRanking 7 "good"));
        EvJSON 200 (H_review "Review updated successfully" "seen" 7 "good")]) /\
  boundedWorker lateEnv (traceOf h [alice; bob] [film "tt1" [drama] (Some 6)])
    = false.
Proof.
  cbv zeta. repeat split; reflexivity.
Qed.

(** C8, amended.  [GetMovies], [GetMovie], [GetTopRatedMovies],
    [GetMoviesByGenre], [MakeMovies], [RegisterUser] and [Login], once past
    their synchronous checks, follow the bounded worker pattern: a worker is
    started first, every call on a collection is made by the worker, the
    worker sends once, and the three-way [select] decides the answer: 408
    exactly when the timer is first, whatever the calls did; otherwise 401,
    409 or 500 for a send on [errorChan], and 200 or 201 for a send on the
    result channel (500 when [RegisterUser] cannot generate the token).
    [GetRecommendedMovies] first looks the user up on the handler's own
    path and follows the pattern for its movie query only.
    [AdminReviewUpdate] does not follow it: its one call is on the
    handler's own path, no worker is started and nothing is raced; it
    answers 500 "Failed to update movie" when the call fails, 404 "Movie
    not found" when no movie has the id and 200 otherwise, never 408. *)
Theorem bounded_worker_handlers :
  forall (X : Externals) (env : Env) (us : list User) (ms : list Movie),
    boundedWorker env (traceOf (GetMovies env) us ms) = true /\
    (forall imdb_id,
       boundedWorker env (traceOf (GetMovie env imdb_id) us ms) = true) /\
    boundedWorker env (traceOf (GetTopRatedMovies env) us ms) = true /\
    (forall genreName, genreName <> "" ->
       boundedWorker env (traceOf (GetMoviesByGenre env genreName) us ms) = true) /\
    (forall movie, validateMovie movie = None ->
       boundedWorker env (traceOf (MakeMovies env (Some movie)) us ms) = true) /\
    (forall user hashedPassword,
       GenerateFromPassword (Password user) = Ok hashedPassword ->
       boundedWorker env (traceOf (RegisterUser env (Some user)) us ms) = true) /\
    (forall userLogin,
       boundedWorker env (traceOf (Login env (Some userLogin)) us ms) = true) /\
    (forall userID user,
       userID <> "" ->
       fault env (FindOneByUserID userID) = None ->
       find (fun u => (UserID u =? userID)%string) us = Some user ->
       FavouriteGenres user <> [] ->
       exists tr,
         traceOf (GetRecommendedMovies env userID) us ms
           = EvStore HandlerThread (FindOneByUserID userID) :: tr /\
         boundedWorker env tr = true) /\
    (forall movieId req,
       movieId <> "" ->
       validateReviewReq req = None ->
       let op := UpdateOne movieId (ReqAdminReview req)
                   (mkRanking (ReqRating req) (getRatingName (ReqRating req))) in
       let out := run (AdminReviewUpdate env movieId (Some req)) us ms in
       trace (snd out)
         = [EvStore HandlerThread op; EvJSON (status (fst out)) (body (fst out))] /\
       (fault env op <> None ->
        fst out = (500, H_error (errorString "Failed to update movie"))) /\
       (fault env op = None ->
        (forall m, In m ms -> ImdbID m <> movieId) ->
        fst out = (404, H_error (errorString "Movie not found"))) /\
       (fault env op = None ->
        (exists m, In m ms /\ ImdbID m = movieId) ->
        fst out = (200, H_review "Review updated successfully"
                          (ReqAdminReview req) (ReqRating req)
                          (getRatingName (ReqRating req)))) /\
       (status (fst out) = 200 \/ status (fst out) = 404 \/
        status (fst out) = 500)).
Proof.
  intros X env us ms.
  repeat match goal with |- _ /\ _ => split end.
  - exec. split_run; finish_pattern.
  - intros imdb_id. exec. split_run; finish_pattern.
  - exec. split_run; finish_pattern.
  - intros g Hg. apply String.eqb_neq in Hg. exec. rewrite Hg. cbn.
    split_run; finish_pattern.
  - intros movie Hv. exec. rewrite Hv. cbn. split_run; finish_pattern.
  - intros user h Hh. exec. rewrite Hh. cbn. split_run; finish_pattern.
  - intros l. exec. split_run; finish_pattern.
  - intros userID user Hid Hf Hfind Hfav. apply String.eqb_neq in Hid.
    exec. rewrite Hid. cbn. rewrite Hf. cbn. rewrite Hfind. cbn.
    destruct (FavouriteGenres user) as [|g gs]; [congruence|]. cbn.
    split_run; eexists; (split; [reflexivity|finish_pattern]).
  - intros movieId req Hid Hv op out. subst out op.
    apply String.eqb_neq in Hid.
    pose (p := fun m => (ImdbID m =? movieId)%string).
    pose (f := setReview (ReqAdminReview req)
                 (mkRanking (ReqRating req) (getRatingName (ReqRating req)))).
    exec. rewrite Hid. cbn. rewrite Hv. cbn.
    destruct (fault env _) as [e|] eqn:Hf; cbn.
    + split; [reflexivity|]. split; [reflexivity|].
      split; [intros H; discriminate H|]. split; [intros H; discriminate H|].
      right. right. reflexivity.
    + fold p f.
      assert (Hnone : (forall m, In m ms -> ImdbID m <> movieId) ->
                      updateFirst p f ms = (ms, 0)).
      { intros H. apply updateFirst_none. intros m Hm.
        apply String.eqb_neq, H, Hm. }
      assert (Hsome : (exists m, In m ms /\ ImdbID m = movieId) ->
                      snd (updateFirst p f ms) = 1).
      { intros (m & Hm & E). apply updateFirst_matched. exists m.
        split; [exact Hm|]. apply String.eqb_eq, E. }
      destruct (updateFirst p f ms) as [ms' matched] eqn:Eu. cbn in *.
      destruct (matched =? 0) eqn:Em; cbn.
      * split; [reflexivity|]. split; [intros H; congruence|].
        split; [reflexivity|].
        split; [|right; left; reflexivity].
        intros _ H. apply Hsome in H. subst matched. discriminate Em.
      * split; [reflexivity|]. split; [intros H; congruence|].
        split; [|split; [reflexivity|left; reflexivity]].
        intros _ H. apply Hnone in H. injection H as _ E0.
        rewrite E0 in Em. discriminate Em.
Qed.

(** C8, amended, on the sample data: the recommendation for [alice], and
    a review with the timer first, answered 200. *)
Lemma bounded_worker_handlers_witness :
  (exists tr,
     traceOf (@GetRecommendedMovies sampleExternals calmEnv "u1")
             [alice; bob] catalog
       = EvStore HandlerThread (FindOneByUserID "u1") :: tr /\
     boundedWorker calmEnv tr = true) /\
  fst (run (AdminReviewUpdate lateEnv "tt1" (Some (mkReviewReq "seen" 7)))
           [alice; bob] catalog)
  = (200, H_review "Review updated successfully" "seen" 7 "good").
Proof.
  assert (Hu : "u1" <> "") by discriminate.
  assert (Hfav : FavouriteGenres alice <> []) by discriminate.
  assert (Hid : "tt1" <> "") by discriminate.
  assert (Hin : exists m, In m catalog /\ ImdbID m = "tt1").
  { exists (film "tt1" [drama] (Some 6)). split; [left; reflexivity|reflexivity]. }
  split.
  - exact (proj1 (proj2 (proj2 (proj2 (proj2 (proj2 (proj2 (proj2
             (bounded_worker_handlers sampleExternals calmEnv [alice; bob]
                catalog)))))))) "u1" alice Hu eq_refl eq_refl Hfav).
  - exact (proj1 (proj2 (proj2 (proj2
             (proj2 (proj2 (proj2 (proj2 (proj2 (proj2 (proj2 (proj2
                (bounded_worker_handlers sampleExternals lateEnv [alice; bob]
                   catalog))))))))
             "tt1" (mkReviewReq "seen" 7) Hid eq_refl))))
           eq_refl Hin).
Defined.

(** ** Further properties of the handlers *)

(** X1. In every raced handler, once past its synchronous checks, the
    answer is 408 when the timer is first, whatever the worker did:
    "request timeout", and "timeout" for [Login]. *)
Theorem timer_first_answers_408 :
  forall (X : Externals) (env : Env) (us : list User) (ms : list Movie),
    timer_first env = true ->
    let timeout := (408, H_error (errorString "request timeout")) in
    responseOf (GetMovies env) us ms = timeout /\
    (forall imdb_id, responseOf (GetMovie env imdb_id) us ms = timeout) /\
    responseOf (GetTopRatedMovies env) us ms = timeout /\
    (forall genreName, genreName <> "" ->
       responseOf (GetMoviesByGenre env genreName) us ms = timeout) /\
    (forall movie, validateMovie movie = None ->
       responseOf (MakeMovies env (Some movie)) us ms = timeout) /\
    (forall user hashedPassword,
       GenerateFromPassword (Password user) = Ok hashedPassword ->
       responseOf (RegisterUser env (Some user)) us ms = timeout) /\
    (forall userLogin,
       responseOf (Login env (Some userLogin)) us ms
         = (408, H_error (errorString "timeout"))).
Proof.
  intros X env us ms Ht timeout. subst timeout.
  repeat match goal with |- _ /\ _ => split end.
  - exec. rewrite Ht. split_run; reflexivity.
  - intros imdb_id. exec. rewrite Ht. split_run; reflexivity.
  - exec. rewrite Ht. split_run; reflexivity.
  - intros g Hg. apply String.eqb_neq in Hg. exec. rewrite Hg. cbn.
    rewrite Ht. split_run; reflexivity.
  - intros movie Hv. exec. rewrite Hv. cbn. rewrite Ht. split_run; reflexivity.
  - intros user h Hh. exec. rewrite Hh. cbn. rewrite Ht. split_run; reflexivity.
  - intros l. exec. rewrite Ht. split_run; reflexivity.
Qed.

(** X1 on the sample data, with the timer first. *)
Lemma timer_first_answers_408_witness :
  responseOf (@Login sampleExternals lateEnv
                (Some (mkUserLogin "alice@example.com" "secret")))
             [alice; bob] catalog
    = (408, H_error (errorString "timeout")).
Proof.
  apply (proj2 (proj2 (proj2 (proj2 (proj2 (proj2
           (timer_first_answers_408 sampleExternals lateEnv [alice; bob]
              catalog eq_refl))))))).
Defined.

Lemma filter_none {A} (p : A -> bool) (l : list A) :
  (forall x, In x l -> p x = false) -> filter p l = [].
Proof.
  induction l as [|x l IH]; intros H; [reflexivity|]. simpl.
  rewrite (H x (or_introl eq_refl)). apply IH.
  intros y Hy. apply H. right. exact Hy.
Qed.

(** X2. The timer does not cancel the worker: a registration with a new
    email whose record is valid and whose calls succeed is inserted even
    when the timer is first and the caller is answered 408. *)
Theorem RegisterUser_timeout_still_inserts :
  forall (X : Externals) (env : Env) (us : list User) (ms : list Movie)
         (user : User) (hashedPassword : string),
    GenerateFromPassword (Password user) = Ok hashedPassword ->
    (forall u, In u us -> Email u <> Email user) ->
    validateUser (stamp env user hashedPassword) = None ->
    fault env (CountDocuments (Email user)) = None ->
    fault env (InsertOneUser (stamp env user hashedPassword)) = None ->
    timer_first env = true ->
    let out := run (RegisterUser env (Some user)) us ms in
    fst out = (408, H_error (errorString "request timeout")) /\
    users (snd out) = us ++ [stamp env user hashedPassword].
Proof.
  intros X env us ms user h Hh Hnew Hv Hc Hi Ht out. subst out.
  exec. rewrite Hh. cbn. rewrite Hc. cbn.
  rewrite filter_none.
  - cbn. rewrite Hv. cbn. rewrite Hi. cbn. rewrite Ht. cbn. split; reflexivity.
  - intros u Hu. apply String.eqb_neq. apply Hnew, Hu.
Qed.

(** X2 on the sample data. *)
Lemma RegisterUser_timeout_still_inserts_witness :
  map Email (users (snd (run (@RegisterUser sampleExternals lateEnv
       (Some (mkUser "" "Al" "Ames" "al@example.com" "pw" "user" 0 0 "" "" [])))
       [alice; bob] catalog)))
  = ["alice@example.com"; "bob@example.com"; "al@example.com"].
Proof.
  rewrite (proj2 (RegisterUser_timeout_still_inserts sampleExternals lateEnv
                    [alice; bob] catalog
                    (mkUser "" "Al" "Ames" "al@example.com" "pw" "user" 0 0 "" "" [])
                    "$2a$10$pw" eq_refl
                    ltac:(intros u [<-|[<-|[]]]; discriminate)
                    eq_refl eq_refl eq_refl eq_refl)).
  reflexivity.
Defined.

(** X3. When the calls succeed and the worker reports before the timer,
    [GetMovies] answers 200 with the whole collection, in its order, and
    [GetMovie] answers 200 with the list (possibly empty, possibly of
    several) of the movies with that "imdb_id". *)
Theorem GetMovies_lists_collection :
  forall (X : Externals) (env : Env) (us : list User) (ms : list Movie),
    timer_first env = false ->
    fault env CursorAll = None ->
    (fault env (Find FilterAll noOptions) = None ->
     responseOf (GetMovies env) us ms = (200, MoviesArray ms)) /\
    (forall imdb_id,
       fault env (Find (FilterImdbID imdb_id) noOptions) = None ->
       responseOf (GetMovie env imdb_id) us ms
         = (200, MoviesArray (filter (fun m => (ImdbID m =? imdb_id)%string) ms))).
Proof.
  intros X env us ms Ht Hc. split.
  - intros Hf. exec. rewrite Hf. cbn. rewrite Hc. cbn. rewrite Ht. cbn.
    unfold selectMovies, applyLimit, applySort. cbn.
    f_equal. f_equal. induction ms as [|m l IH]; [reflexivity|].
    cbn. f_equal. exact IH.
  - intros imdb_id Hf. exec. rewrite Hf. cbn. rewrite Hc. cbn. rewrite Ht.
    reflexivity.
Qed.

(** X3 on the sample data: no movie has the id "tt0". *)
Lemma GetMovies_lists_collection_witness :
  responseOf (@GetMovie sampleExternals calmEnv "tt0") [alice; bob] catalog
    = (200, MoviesArray []).
Proof.
  apply (proj2 (GetMovies_lists_collection sampleExternals calmEnv [alice; bob]
                  catalog eq_refl eq_refl) "tt0" eq_refl).
Defined.

(** X4. When the calls succeed and the worker reports before the timer,
    [GetTopRatedMovies] lists the 20 first movies of the collection with a
    ranking value of at least 7, once sorted: when at most 20 movies have
    one, every one of them is listed, each as often as it is stored, and
    [total_found] is their number. *)
Theorem GetTopRatedMovies_complete :
  forall (X : Externals) (env : Env) (us : list User) (ms : list Movie),
    timer_first env = false ->
    fault env (Find (FilterRankingGte 7) (mkFindOptions (Some (-1)) 20)) = None ->
    fault env CursorAll = None ->
    (List.length (filter (rankingGte 7) ms) <= 20)%nat ->
    exists l,
      responseOf (GetTopRatedMovies env) us ms
        = (200, H_top_rated l (Z.of_nat (List.length (filter (rankingGte 7) ms))) 7) /\
      Permutation (filter (rankingGte 7) ms) l.
Proof.
  intros X env us ms Ht Hf Hc Hlen.
  rewrite GetTopRatedMovies_response. cbv zeta. rewrite Ht, Hf, Hc.
  pose proof (sortMovies_perm (before (-1)) (filter (rankingGte 7) ms)) as P.
  assert (E : selectMovies regexMatch (FilterRankingGte 7)
                (mkFindOptions (Some (-1)) 20) ms
              = sortMovies (before (-1)) (filter (rankingGte 7) ms)).
  { unfold selectMovies, applyLimit, applySort. cbn.
    apply firstn_all2. rewrite <- (Permutation_length P). exact Hlen. }
  rewrite E. eexists. split; [|exact P].
  rewrite <- (Permutation_length P). reflexivity.
Qed.

(** X4 on the sample catalog: the three movies ranked 7 or more. *)
Lemma GetTopRatedMovies_complete_witness :
  exists l,
    responseOf (@GetTopRatedMovies sampleExternals calmEnv) [alice; bob] catalog
      = (200, H_top_rated l 3 7) /\
    Permutation [film "tt2" [comedy] (Some 9); film "tt3" [drama; comedy] (Some 8);
                 film "tt5" [drama] (Some 10)] l.
Proof.
  apply (GetTopRatedMovies_complete sampleExternals calmEnv [alice; bob] catalog
           eq_refl eq_refl eq_refl).
  cbn. lia.
Defined.

(** X5. A registration with a new email whose populated record is valid,
    whose calls succeed and whose worker reports before the timer is
    answered 201 with the access token and the projection of the user (id,
    "first last", email, role, favourite genres; no password); the record
    appended to the collection carries the fresh id, the two clock readings
    and the hash in place of the submitted password. *)
Theorem RegisterUser_created :
  forall (X : Externals) (env : Env) (us : list User) (ms : list Movie)
         (user : User) (hashedPassword token : string),
    GenerateFromPassword (Password user) = Ok hashedPassword ->
    (forall u, In u us -> Email u <> Email user) ->
    validateUser (stamp env user hashedPassword) = None ->
    fault env (CountDocuments (Email user)) = None ->
    fault env (InsertOneUser (stamp env user hashedPassword)) = None ->
    timer_first env = false ->
    GenerateAccessToken (Email user) (FirstName user) (LastName user)
                        (Role user) (NewObjectIDHex env) = Ok token ->
    let out := run (RegisterUser env (Some user)) us ms in
    fst out = (StatusCreated,
               H_registered token (NewObjectIDHex env)
                 (FirstName user ++ " " ++ LastName user)%string
                 (Email user) (Role user) (FavouriteGenres user)) /\
    users (snd out) = us ++ [stamp env user hashedPassword] /\
    Password (stamp env user hashedPassword) = hashedPassword /\
    UserID (stamp env user hashedPassword) = NewObjectIDHex env /\
    CreatedAt (stamp env user hashedPassword) = timeNow env 0%nat /\
    UpdatedAt (stamp env user hashedPassword) = timeNow env 1%nat.
Proof.
  intros X env us ms user h token Hh Hnew Hv Hc Hi Ht Htok out. subst out.
  exec. rewrite Hh. cbn. rewrite Hc. cbn.
  rewrite filter_none.
  - cbn. rewrite Hv. cbn. rewrite Hi. cbn. rewrite Ht. cbn. rewrite Htok. cbn.
    repeat split; reflexivity.
  - intros u Hu. apply String.eqb_neq. apply Hnew, Hu.
Qed.

(** X5 on the sample data. *)
Lemma RegisterUser_created_witness :
  fst (run (@RegisterUser sampleExternals calmEnv
       (Some (mkUser "" "Al" "Ames" "al@example.com" "pw" "user" 0 0 "" "" [])))
       [alice; bob] catalog)
  = (201, H_registered "access.al@example.com" "64f0c0ffee64f0c0ffee64f0"
            "Al Ames" "al@example.com" "user" []).
Proof.
  apply (proj1 (RegisterUser_created sampleExternals calmEnv [alice; bob] catalog
                  (mkUser "" "Al" "Ames" "al@example.com" "pw" "user" 0 0 "" "" [])
                  "$2a$10$pw" "access.al@example.com" eq_refl
                  ltac:(intros u [<-|[<-|[]]]; discriminate)
                  eq_refl eq_refl eq_refl eq_refl eq_refl)).
Defined.

(** ** Registration and login together *)

Lemma filter_nil_none {A} (p : A -> bool) (l : list A) :
  filter p l = [] -> forall x, In x l -> p x = false.
Proof.
  induction l as [|y l IH]; intros H x Hx; [destruct Hx|].
  simpl in H. destruct (p y) eqn:Hy; [discriminate|].
  destruct Hx as [->|Hx]; [exact Hy|apply IH; assumption].
Qed.

Lemma count_zero (p : User -> bool) us :
  (0 <? Z.of_nat (List.length (filter p us))) = false ->
  forall u, In u us -> p u = false.
Proof.
  intros H. apply filter_nil_none.
  destruct (filter p us); [reflexivity|]. simpl in H.
  apply Z.ltb_ge in H. lia.
Qed.

(** The collection "User" after a registration, in every environment. *)
Lemma RegisterUser_users `{X : Externals} env us ms user :
  users (snd (run (RegisterUser env (Some user)) us ms)) =
    match GenerateFromPassword (Password user) with
    | Err _ => us
    | Ok h =>
        match fault env (CountDocuments (Email user)) with
        | Some _ => us
        | None =>
            if 0 <? Z.of_nat (List.length
                      (filter (fun u => (Email u =? Email user)%string) us))
            then us
            else match validateUser (stamp env user h) with
                 | Some _ => us
                 | None =>
                     match fault env (InsertOneUser (stamp env user h)) with
                     | Some _ => us
                     | None => us ++ [stamp env user h]
                     end
                 end
        end
    end.
Proof.
  exec. destruct (GenerateFromPassword (Password user)); [|reflexivity]. cbn.
  split_run; reflexivity.
Qed.

(** X6. For a registration that runs alone, with no other request
    writing the collection between its count query and its insert (the two
    are separate calls, and nothing in the handler keeps two registrations
    with one email apart): in every environment and for every body,
    [RegisterUser] appends at most one record, and only one whose email no
    stored user has; if the emails of the collection are pairwise distinct
    before the request, they are after it. *)
Theorem RegisterUser_keeps_emails_unique :
  forall (X : Externals) (env : Env) (us : list User) (ms : list Movie)
         (body : option User),
    NoDup (map Email us) ->
    let after := users (snd (run (RegisterUser env body) us ms)) in
    NoDup (map Email after) /\
    (after = us \/
     exists user hashedPassword,
       body = Some user /\
       after = us ++ [stamp env user hashedPassword] /\
       forall u, In u us -> Email u <> Email user).
Proof.
  intros X env us ms [user|] Hnd after; subst after;
    [|split; [exact Hnd|left; reflexivity]].
  rewrite RegisterUser_users.
  destruct (GenerateFromPassword (Password user)) as [h|];
    [|split; [exact Hnd|left; reflexivity]].
  destruct (fault env (CountDocuments (Email user)));
    [split; [exact Hnd|left; reflexivity]|].
  destruct (0 <? _) eqn:Hc; [split; [exact Hnd|left; reflexivity]|].
  destruct (validateUser (stamp env user h));
    [split; [exact Hnd|left; reflexivity]|].
  destruct (fault env (InsertOneUser (stamp env user h)));
    [split; [exact Hnd|left; reflexivity]|].
  assert (Hnew : forall u, In u us -> Email u <> Email user).
  { intros u Hu. apply String.eqb_neq. exact (count_zero _ us Hc u Hu). }
  split.
  - rewrite map_app. cbn.
    apply Permutation_NoDup with (l := Email user :: map Email us).
    + apply Permutation_cons_append.
    + constructor; [|exact Hnd].
      intros Hin. apply in_map_iff in Hin as (u & E & Hu).
      exact (Hnew u Hu E).
  - right. exists user, h. auto.
Qed.

(** X6 on the sample data: a third user is appended, the emails stay
    distinct. *)
Lemma RegisterUser_keeps_emails_unique_witness :
  NoDup (map Email (users (snd (run (@RegisterUser sampleExternals calmEnv
     (Some (mkUser "" "Al" "Ames" "al@example.com" "pw" "user" 0 0 "" "" [])))
     [alice; bob] catalog)))).
Proof.
  apply (proj1 (RegisterUser_keeps_emails_unique sampleExternals calmEnv
                  [alice; bob] catalog
                  (Some (mkUser "" "Al" "Ames" "al@example.com" "pw" "user"
                                0 0 "" "" [])) 
                  ltac:(repeat constructor; cbn; intuition discriminate))).
Defined.

Lemma find_app_none {A} (p : A -> bool) (l1 l2 : list A) :
  (forall x, In x l1 -> p x = false) -> find p (l1 ++ l2) = find p l2.
Proof.
  induction l1 as [|x l1 IH]; intros H; [reflexivity|]. simpl.
  rewrite (H x (or_introl eq_refl)). apply IH.
  intros y Hy. apply H. right. exact Hy.
Qed.

(** X7. Registration and login compose: after a registration with a new
    email that was stored (whether its caller was answered 201 or, the
    timer first, 408), a login with the same email and password, answered
    by the store and before the timer, is answered 200 with the id the
    registration assigned, the names, email, role and favourite genres as
    submitted, and the two tokens.  bcrypt is taken to verify the hash it
    generated. *)
Theorem Register_then_Login :
  forall (X : Externals) (env1 env2 : Env) (us : list User) (ms : list Movie)
         (user : User) (hashedPassword token refreshToken : string),
    GenerateFromPassword (Password user) = Ok hashedPassword ->
    CompareHashAndPassword hashedPassword (Password user) = None ->
    (forall u, In u us -> Email u <> Email user) ->
    validateUser (stamp env1 user hashedPassword) = None ->
    fault env1 (CountDocuments (Email user)) = None ->
    fault env1 (InsertOneUser (stamp env1 user hashedPassword)) = None ->
    fault env2 (FindOneByEmail (Email user)) = None ->
    GenerateAccessToken (Email user) (FirstName user) (LastName user)
                        (Role user) (NewObjectIDHex env1) = Ok token ->
    GenerateRefreshToken (Email user) (FirstName user) (LastName user)
                         (Role user) (NewObjectIDHex env1) = Ok refreshToken ->
    fault env2 (UpdateAllTokens (NewObjectIDHex env1) token refreshToken) = None ->
    timer_first env2 = false ->
    let registered := users (snd (run (RegisterUser env1 (Some user)) us ms)) in
    responseOf (Login env2 (Some (mkUserLogin (Email user) (Password user))))
               registered ms
      = (200, H_login (mkUserResponse (NewObjectIDHex env1) (FirstName user)
                         (LastName user) (Email user) (Role user)
                         token refreshToken (FavouriteGenres user))).
Proof.
  intros X env1 env2 us ms user h token refresh
         Hh Hcmp Hnew Hv Hc Hi Hf Htok Href Hupd Ht registered.
  assert (Hnone : forall u, In u us ->
                    (Email u =? Email user)%string = false).
  { intros u Hu. apply String.eqb_neq, Hnew, Hu. }
  subst registered. rewrite RegisterUser_users, Hh, Hc.
  rewrite (filter_none _ us Hnone). cbn. rewrite Hv, Hi.
  exec. rewrite Hf. cbn.
  rewrite (find_app_none _ us _ Hnone). cbn.
  rewrite String.eqb_refl. cbn. rewrite Hcmp. cbn.
  rewrite Htok. cbn. rewrite Href. cbn. rewrite Hupd. cbn. rewrite Ht.
  reflexivity.
Qed.

(** X7 on the sample data, the registration answered 408. *)
Lemma Register_then_Login_witness :
  responseOf (@Login sampleExternals calmEnv
                (Some (mkUserLogin "al@example.com" "pw")))
    (users (snd (run (@RegisterUser sampleExternals lateEnv
       (Some (mkUser "" "Al" "Ames" "al@example.com" "pw" "user" 0 0 "" "" [drama])))
       [alice; bob] catalog)))
    catalog
  = (200, H_login (mkUserResponse "64f0c0ffee64f0c0ffee64f0" "Al" "Ames"
                     "al@example.com" "user" "access.al@example.com"
                     "refresh.al@example.com" [drama])).
Proof.
  apply (Register_then_Login sampleExternals lateEnv calmEnv [alice; bob] catalog
           (mkUser "" "Al" "Ames" "al@example.com" "pw" "user" 0 0 "" "" [drama])
           "$2a$10$pw" "access.al@example.com" "refresh.al@example.com"
           eq_refl eq_refl
           ltac:(intros u [<-|[<-|[]]]; discriminate)
           eq_refl eq_refl eq_refl eq_refl eq_refl eq_refl eq_refl eq_refl).
Defined.

(** X8. [Login] answers 200, 400, 401 or 408 and nothing else: every error
    of the worker (no such email, a refused password, a failed token
    generation, a failed token update) is answered 401.  It never changes
    the collection "Movie", and a login answered 400 or 401 leaves the
    collection "User" as it was. *)
Theorem Login_answers :
  forall (X : Externals) (env : Env) (us : list User) (ms : list Movie)
         (body : option UserLogin),
    let out := run (Login env body) us ms in
    In (status (fst out)) [200; 400; 401; 408] /\
    movies (snd out) = ms /\
    (status (fst out) = 400 \/ status (fst out) = 401 -> users (snd out) = us).
Proof.
  intros X env us ms [l|] out; subst out; exec.
  - split_run; (split; [cbn; tauto|]); (split; [reflexivity|]);
      intros [H|H]; (reflexivity || discriminate H || congruence).
  - split; [cbn; tauto|]. split; [reflexivity|]. reflexivity.
Qed.

(** X9. [Login] answers 200 only after bcrypt accepted the submitted
    password: against the stored hash of the first user with that email,
    whose id, names, email, role and favourite genres the answer then
    carries; or, when the lookup failed with an error other than "no
    documents", against the empty hash of the zero-valued record. *)
Theorem Login_200_only_if_verified :
  forall (X : Externals) (env : Env) (us : list User) (ms : list Movie)
         (body : option UserLogin),
    status (responseOf (Login env body) us ms) = 200 ->
    exists l,
      body = Some l /\
      ((exists u token refreshToken,
          find (fun u => (Email u =? LoginEmail l)%string) us = Some u /\
          CompareHashAndPassword (Password u) (LoginPassword l) = None /\
          responseOf (Login env body) us ms
            = (200, H_login (mkUserResponse (UserID u) (FirstName u) (LastName u)
                               (Email u) (Role u) token refreshToken
                               (FavouriteGenres u)))) \/
       (exists e,
          fault env (FindOneByEmail (LoginEmail l)) = Some e /\
          CompareHashAndPassword (Password zeroUser) (LoginPassword l) = None)).
Proof.
  intros X env us ms [l|]; [|exec; discriminate].
  intros H. exists l. split; [reflexivity|]. revert H. exec.
  destruct (fault env (FindOneByEmail (LoginEmail l))) as [e|] eqn:Hf; cbn.
  - destruct (CompareHashAndPassword "" (LoginPassword l)) eqn:Hc; cbn.
    + split_run; discriminate.
    + intros _. right. exists e. split; reflexivity.
  - destruct (find _ us) as [u|] eqn:Hfind; cbn.
    + destruct (CompareHashAndPassword (Password u) (LoginPassword l)) eqn:Hc; cbn.
      * split_run; discriminate.
      * split_run; try discriminate. intros _. left.
        do 3 eexists. split; [reflexivity|]. split; [exact Hc|reflexivity].
    + split_run; discriminate.
Qed.

(** X9 for [alice] and her password. *)
Lemma Login_200_only_if_verified_witness :
  exists l,
    Some (mkUserLogin "alice@example.com" "secret") = Some l /\
    ((exists u token refreshToken,
        find (fun u => (Email u =? LoginEmail l)%string) [alice; bob] = Some u /\
        sampleCompare (Password u) (LoginPassword l) = None /\
        responseOf (@Login sampleExternals calmEnv
                      (Some (mkUserLogin "alice@example.com" "secret")))
                   [alice; bob] catalog
          = (200, H_login (mkUserResponse (UserID u) (FirstName u) (LastName u)
                             (Email u) (Role u) token refreshToken
                             (FavouriteGenres u)))) \/
     (exists e,
        fault calmEnv (FindOneByEmail (LoginEmail l)) = Some e /\
        sampleCompare (Password zeroUser) (LoginPassword l) = None)).
Proof.
  apply (Login_200_only_if_verified sampleExternals calmEnv [alice; bob] catalog
           (Some (mkUserLogin "alice@example.com" "secret"))).
  reflexivity.
Defined.

(** ** What the movie handlers leave and change *)

Lemma withObjectID_insertedAs fresh m :
  insertedAs fresh m (withObjectID fresh m).
Proof.
  unfold insertedAs, withObjectID.
  destruct (String.eqb_spec (ID m) "") as [E|E]; cbn;
    repeat split; try reflexivity; intros H; congruence.
Qed.

(** What [GetMovie] answers, in every environment. *)
Lemma GetMovie_response `{X : Externals} env us ms imdb_id :
  responseOf (GetMovie env imdb_id) us ms =
    if timer_first env then (408, H_error (errorString "request timeout"))
    else match fault env (Find (FilterImdbID imdb_id) noOptions) with
         | Some e => (500, H_error e)
         | None =>
             match fault env CursorAll with
             | Some e => (500, H_error e)
             | None =>
                 (200, MoviesArray
                         (filter (fun m => (ImdbID m =? imdb_id)%string) ms))
             end
         end.
Proof.
  exec. split_run; reflexivity.
Qed.

Ltac same_store := split_run; (split; reflexivity).

(** X10. The five reading handlers ([GetMovies], [GetMovie],
    [GetTopRatedMovies], [GetMoviesByGenre], [GetRecommendedMovies]) leave
    both collections as they were, for every parameter and in every
    environment. *)
Theorem reading_handlers_change_nothing :
  forall (X : Externals) (env : Env) (us : list User) (ms : list Movie),
    let same (out : Response * State) :=
      users (snd out) = us /\ movies (snd out) = ms in
    same (run (GetMovies env) us ms) /\
    (forall imdb_id, same (run (GetMovie env imdb_id) us ms)) /\
    same (run (GetTopRatedMovies env) us ms) /\
    (forall genreName, same (run (GetMoviesByGenre env genreName) us ms)) /\
    (forall userID, same (run (GetRecommendedMovies env userID) us ms)).
Proof.
  intros X env us ms same. subst same. cbv beta.
  split; [exec; same_store|].
  split; [intros imdb_id; exec; same_store|].
  split; [exec; same_store|].
  split.
  - intros g. exec. destruct (g =? "")%string; cbn; [split; reflexivity|].
    same_store.
  - intros id. exec. destruct (id =? "")%string; cbn; [split; reflexivity|].
    destruct (fault env (FindOneByUserID id)); cbn; [split; reflexivity|].
    destruct (find _ us) as [u|]; cbn; [|split; reflexivity].
    destruct (FavouriteGenres u); cbn; [split; reflexivity|].
    same_store.
Qed.

(** X11. Creation and lookup compose: a movie that [MakeMovies] accepted
    and stored (whatever its caller was answered) is listed by [GetMovie]
    for its "imdb_id" with every field as submitted, except that a movie
    submitted without an "_id" is listed with the fresh one it was stored
    under.  It comes after every movie stored earlier under the same
    "imdb_id": [MakeMovies] does not look for one. *)
Theorem MakeMovies_then_GetMovie :
  forall (X : Externals) (env1 env2 : Env) (us : list User) (ms : list Movie)
         (movie : Movie),
    validateMovie movie = None ->
    fault env1 (InsertOneMovie movie) = None ->
    fault env2 (Find (FilterImdbID (ImdbID movie)) noOptions) = None ->
    fault env2 CursorAll = None ->
    timer_first env2 = false ->
    let stored := movies (snd (run (MakeMovies env1 (Some movie)) us ms)) in
    exists created,
      stored = ms ++ [created] /\
      insertedAs (NewObjectIDHex env1) movie created /\
      responseOf (GetMovie env2 (ImdbID movie)) us stored
        = (200, MoviesArray
                  (filter (fun m => (ImdbID m =? ImdbID movie)%string) ms
                   ++ [created])).
Proof.
  intros X env1 env2 us ms movie Hv Hi Hf Hc Ht stored.
  exists (withObjectID (NewObjectIDHex env1) movie).
  assert (E : stored = ms ++ [withObjectID (NewObjectIDHex env1) movie]).
  { subst stored. exec. rewrite Hv. cbn. rewrite Hi. cbn.
    destruct (timer_first env1); reflexivity. }
  assert (Hid : ImdbID (withObjectID (NewObjectIDHex env1) movie) = ImdbID movie).
  { unfold withObjectID. destruct (ID movie =? "")%string; reflexivity. }
  split; [exact E|]. split.
  - apply withObjectID_insertedAs.
  - rewrite E, GetMovie_response, Ht, Hf, Hc.
    rewrite filter_app. cbn. rewrite Hid, String.eqb_refl. reflexivity.
Qed.

(** X11 on the sample data: a second movie under the id "tt1", submitted
    without an "_id" and answered 408. *)
Lemma MakeMovies_then_GetMovie_witness :
  responseOf (@GetMovie sampleExternals calmEnv "tt1") [alice; bob]
    (movies (snd (run (@MakeMovies sampleExternals lateEnv
                         (Some (film "tt1" [comedy] None)))
                      [alice; bob] catalog)))
  = (200, MoviesArray
            [film "tt1" [drama] (Some 6);
             mkMovie "64f0c0ffee64f0c0ffee64f0" "tt1" "tt1"
                     "https://example.com/p.jpg" "yt" [comedy] None None]).
Proof.
  destruct (MakeMovies_then_GetMovie sampleExternals lateEnv calmEnv
              [alice; bob] catalog (film "tt1" [comedy] None)
              eq_refl eq_refl eq_refl eq_refl eq_refl)
    as (created & E & _ & R).
  change (catalog ++ [mkMovie "64f0c0ffee64f0c0ffee64f0" "tt1" "tt1"
                              "https://example.com/p.jpg" "yt" [comedy] None None]
          = catalog ++ [created]) in E.
  apply app_inv_head in E. injection E as <-. exact R.
Defined.

(** ** The admin review, on the collection *)

Lemma updateFirst_split p f l1 m l2 :
  (forall x, In x l1 -> p x = false) -> p m = true ->
  updateFirst p f (l1 ++ m :: l2) = (l1 ++ f m :: l2, 1).
Proof.
  induction l1 as [|x l1 IH]; intros H Hm; simpl.
  - rewrite Hm. reflexivity.
  - rewrite (H x (or_introl eq_refl)).
    rewrite IH; [reflexivity| |exact Hm]. intros y Hy. apply H. right. exact Hy.
Qed.

Lemma updateFirst_Forall2 p f l :
  Forall2 (fun m0 m => m = m0 \/ (p m0 = true /\ m = f m0))
          l (fst (updateFirst p f l)).
Proof.
  induction l as [|x l IH]; simpl; [constructor|].
  destruct (p x) eqn:Hx.
  - simpl. constructor; [right; split; [exact Hx|reflexivity]|].
    clear IH. induction l; constructor; auto.
  - destruct (updateFirst p f l) as [l' n]. simpl in *.
    constructor; [left; reflexivity|exact IH].
Qed.

Lemma validateReviewReq_accepts req :
  validateReviewReq req = None <->
  ReqAdminReview req <> "" /\ 1 <= ReqRating req <= 10.
Proof.
  unfold validateReviewReq, validateString_required, validateRating.
  destruct (String.eqb_spec (ReqAdminReview req) "") as [E|E]; simpl.
  - split; [discriminate|]. intros [H _]. contradiction.
  - destruct (Z.eqb_spec (ReqRating req) 0); simpl;
      [split; [discriminate|lia]|].
    destruct (Z.ltb_spec (ReqRating req) 1); simpl;
      [split; [discriminate|lia]|].
    destruct (Z.ltb_spec 10 (ReqRating req)); simpl;
      [split; [discriminate|lia]|].
    split; [intros _; split; [exact E|lia]|reflexivity].
Qed.

(** The collection "Movie" after [AdminReviewUpdate], in every
    environment. *)
Lemma AdminReviewUpdate_movies env us ms movieId body :
  movies (snd (run (AdminReviewUpdate env movieId body) us ms)) =
    if (movieId =? "")%string then ms
    else match body with
         | None => ms
         | Some req =>
             let ranking := mkRanking (ReqRating req)
                                      (getRatingName (ReqRating req)) in
             match validateReviewReq req with
             | Some _ => ms
             | None =>
                 match fault env (UpdateOne movieId (ReqAdminReview req) ranking) with
                 | Some _ => ms
                 | None =>
                     fst (updateFirst (fun m => (ImdbID m =? movieId)%string)
                            (setReview (ReqAdminReview req) ranking) ms)
                 end
             end
         end.
Proof.
  exec. destruct (movieId =? "")%string; [reflexivity|]. cbn.
  destruct body as [req|]; [|reflexivity]. cbn.
  destruct (validateReviewReq req); [reflexivity|]. cbn.
  destruct (fault env _); [reflexivity|]. cbn.
  destruct (updateFirst _ _ ms) as [ms' n]. cbn.
  destruct (n =? 0); reflexivity.
Qed.

(** X12. [AdminReviewUpdate] for an id that no stored movie has, with a
    review and rating that pass validation and an update the store
    answers, is answered 404 "Movie not found" and the collection is as it
    was: the handler never creates a movie. *)
Theorem AdminReviewUpdate_not_found :
  forall (env : Env) (us : list User) (ms : list Movie)
         (movieId : string) (req : ReviewReq),
    movieId <> "" ->
    validateReviewReq req = None ->
    fault env (UpdateOne movieId (ReqAdminReview req)
                 (mkRanking (ReqRating req) (getRatingName (ReqRating req)))) = None ->
    (forall m, In m ms -> ImdbID m <> movieId) ->
    let out := run (AdminReviewUpdate env movieId (Some req)) us ms in
    fst out = (StatusNotFound, H_error (errorString "Movie not found")) /\
    movies (snd out) = ms.
Proof.
  intros env us ms movieId req Hid Hv Hf Hnone out. subst out.
  apply String.eqb_neq in Hid.
  assert (Hu : updateFirst (fun m => (ImdbID m =? movieId)%string)
                 (setReview (ReqAdminReview req)
                    (mkRanking (ReqRating req) (getRatingName (ReqRating req)))) ms
               = (ms, 0)).
  { apply updateFirst_none. intros m Hm. apply String.eqb_neq, Hnone, Hm. }
  exec. rewrite Hid. cbn. rewrite Hv. cbn. rewrite Hf. cbn.
  rewrite Hu. cbn. split; reflexivity.
Qed.

(** X12 on the sample catalog, which has no movie "tt0". *)
Lemma AdminReviewUpdate_not_found_witness :
  fst (run (AdminReviewUpdate calmEnv "tt0" (Some (mkReviewReq "seen" 7)))
           [alice; bob] catalog)
  = (404, H_error (errorString "Movie not found")).
Proof.
  apply (proj1 (AdminReviewUpdate_not_found calmEnv [alice; bob] catalog "tt0"
                  (mkReviewReq "seen" 7) ltac:(discriminate) eq_refl eq_refl
                  ltac:(cbn; intuition (subst; discriminate)))).
Defined.

(** X13. Review and lookup compose, and only the first match is touched:
    when several stored movies share the id, [AdminReviewUpdate] rewrites
    the first one and leaves every other movie as it was.  The rewritten
    movie keeps its id, "imdb_id", title, poster, video and genres; its
    review is now the submitted text and its ranking the submitted value
    [r] with the name [getRatingName r].  [GetMovie] for that id then
    lists it first, followed by the later movies with the id, unchanged. *)
Theorem AdminReviewUpdate_then_GetMovie :
  forall (X : Externals) (env1 env2 : Env) (us : list User)
         (before after : list Movie) (m : Movie) (req : ReviewReq),
    ImdbID m <> "" ->
    validateReviewReq req = None ->
    (forall x, In x before -> ImdbID x <> ImdbID m) ->
    fault env1 (UpdateOne (ImdbID m) (ReqAdminReview req)
                  (mkRanking (ReqRating req) (getRatingName (ReqRating req)))) = None ->
    fault env2 (Find (FilterImdbID (ImdbID m)) noOptions) = None ->
    fault env2 CursorAll = None ->
    timer_first env2 = false ->
    let stored :=
      movies (snd (run (AdminReviewUpdate env1 (ImdbID m) (Some req)) us
                       (before ++ m :: after))) in
    exists reviewed,
      stored = before ++ reviewed :: after /\
      sameButReview m reviewed /\
      AdminReview reviewed = Some (ReqAdminReview req) /\
      Ranking_ reviewed
        = Some (mkRanking (ReqRating req) (getRatingName (ReqRating req))) /\
      responseOf (GetMovie env2 (ImdbID m)) us stored
        = (200, MoviesArray
                  (reviewed :: filter (fun x => (ImdbID x =? ImdbID m)%string) after)).
Proof.
  intros X env1 env2 us before after m req Hid Hv Hb Hf1 Hf2 Hc Ht stored.
  pose (reviewed := setReview (ReqAdminReview req)
          (mkRanking (ReqRating req) (getRatingName (ReqRating req))) m).
  exists reviewed.
  apply String.eqb_neq in Hid.
  assert (Hnone : forall x, In x before ->
                    (ImdbID x =? ImdbID m)%string = false).
  { intros x Hx. apply String.eqb_neq, Hb, Hx. }
  assert (E : stored = before ++ reviewed :: after).
  { subst stored. rewrite AdminReviewUpdate_movies, Hid, Hv. cbv zeta.
    rewrite Hf1.
    rewrite updateFirst_split; [reflexivity|exact Hnone|apply String.eqb_refl]. }
  split; [exact E|]. split; [repeat split|].
  split; [reflexivity|]. split; [reflexivity|].
  rewrite E, GetMovie_response, Ht, Hf2, Hc.
  rewrite filter_app, (filter_none _ before Hnone). cbn.
  rewrite String.eqb_refl. reflexivity.
Qed.

(** X13 on the sample catalog with a second "tt1" appended. *)
Lemma AdminReviewUpdate_then_GetMovie_witness :
  responseOf (@GetMovie sampleExternals calmEnv "tt1") [alice; bob]
    (movies (snd (run (AdminReviewUpdate calmEnv "tt1" (Some (mkReviewReq "seen" 9)))
                      [alice; bob] (catalog ++ [film "tt1" [comedy] None]))))
  = (200, MoviesArray
            [mkMovie "" "tt1" "tt1" "https://example.com/p.jpg" "yt" [drama]
                     (Some "seen") (Some (mkRanking 9 "excellent"));
             film "tt1" [comedy] None]).
Proof.
  assert (Hid : ImdbID (film "tt1" [drama] (Some 6)) <> "") by discriminate.
  assert (Hb : forall x, In x (@nil Movie) ->
                 ImdbID x <> ImdbID (film "tt1" [drama] (Some 6)))
    by (intros x []).
  destruct (AdminReviewUpdate_then_GetMovie sampleExternals calmEnv calmEnv
              [alice; bob] [] (tl catalog ++ [film "tt1" [comedy] None])
              (film "tt1" [drama] (Some 6)) (mkReviewReq "seen" 9)
              Hid eq_refl Hb eq_refl eq_refl eq_refl eq_refl)
    as (reviewed & E & _ & _ & _ & R).
  change (mkMovie "" "tt1" "tt1" "https://example.com/p.jpg" "yt" [drama]
                  (Some "seen") (Some (mkRanking 9 "excellent"))
            :: (tl catalog ++ [film "tt1" [comedy] None])
          = reviewed :: (tl catalog ++ [film "tt1" [comedy] None])) in E.
  injection E as <-. exact R.
Defined.

(** X14. For every parameter and body and in every environment,
    [AdminReviewUpdate] leaves the collection "User" as it was and keeps
    the movies in number and order; each movie keeps its id, "imdb_id",
    title, poster, video and genres, and is either untouched or has the
    requested id and now a ranking with a value in 1..10 and the name
    [getRatingName] gives that value.  So if every stored ranking has that
    form before the request, every stored ranking has it after. *)
Theorem AdminReviewUpdate_keeps_collection :
  forall (env : Env) (us : list User) (ms : list Movie)
         (movieId : string) (body : option ReviewReq),
    let out := run (AdminReviewUpdate env movieId body) us ms in
    users (snd out) = us /\
    Forall2 (fun m0 m =>
               sameButReview m0 m /\
               (m = m0 \/ (ImdbID m0 = movieId /\ rankingAsReviewed m /\
                           Ranking_ m <> None)))
            ms (movies (snd out)) /\
    (Forall rankingAsReviewed ms -> Forall rankingAsReviewed (movies (snd out))).
Proof.
  intros env us ms movieId body out.
  assert (Hsame : Forall2 (fun m0 m => sameButReview m0 m /\
                    (m = m0 \/ (ImdbID m0 = movieId /\ rankingAsReviewed m /\
                                Ranking_ m <> None))) ms ms).
  { clear. induction ms; constructor; [|assumption].
    split; [repeat split|left; reflexivity]. }
  assert (H2 : Forall2 (fun m0 m => sameButReview m0 m /\
                    (m = m0 \/ (ImdbID m0 = movieId /\ rankingAsReviewed m /\
                                Ranking_ m <> None))) ms (movies (snd out))).
  { subst out. rewrite AdminReviewUpdate_movies.
    destruct (movieId =? "")%string; [exact Hsame|].
    destruct body as [req|]; [|exact Hsame]. cbv zeta.
    destruct (validateReviewReq req) eqn:Hv; [exact Hsame|].
    destruct (fault env _); [exact Hsame|].
    apply validateReviewReq_accepts in Hv as [_ Hr].
    eapply Forall2_impl; [|apply updateFirst_Forall2].
    intros m0 m [->|[Hp ->]].
    - split; [repeat split|left; reflexivity].
    - split; [repeat split|]. right. apply String.eqb_eq in Hp.
      split; [exact Hp|]. split; [|discriminate].
      unfold rankingAsReviewed. cbn. split; [exact Hr|reflexivity]. }
  split; [|split; [exact H2|]].
  - subst out. exec. destruct (movieId =? "")%string; [reflexivity|]. cbn.
    destruct body as [req|]; [|reflexivity]. cbn.
    destruct (validateReviewReq req); [reflexivity|]. cbn.
    destruct (fault env _); [reflexivity|]. cbn.
    destruct (updateFirst _ _ ms) as [ms' n]. cbn.
    destruct (n =? 0); reflexivity.
  - intros Hall. clear Hsame. induction H2 as [|m0 m l l' [_ Hm] _ IH];
      [constructor|].
    inversion Hall; subst. constructor; [|apply IH; assumption].
    destruct Hm as [->|(_ & Hr & _)]; assumption.
Qed.

(** X15. [AdminReviewUpdate] calls the store exactly when the route
    parameter is not empty, the body binds, the review text is not empty
    and the rating is in 1..10; in every other case it answers 400 without
    a call. *)
Theorem AdminReviewUpdate_calls_store_iff :
  forall (env : Env) (us : list User) (ms : list Movie)
         (movieId : string) (body : option ReviewReq),
    let out := run (AdminReviewUpdate env movieId body) us ms in
    let passes :=
      movieId <> "" /\
      exists req, body = Some req /\
                  ReqAdminReview req <> "" /\ 1 <= ReqRating req <= 10 in
    (existsb isStore (trace (snd out)) = true <-> passes) /\
    (~ passes -> status (fst out) = StatusBadRequest).
Proof.
  intros env us ms movieId body out passes. subst out passes. exec.
  destruct (String.eqb_spec movieId "") as [E|E]; cbn.
  - split; [split; [discriminate|intros [H _]; contradiction]|reflexivity].
  - destruct body as [req|]; cbn.
    + destruct (validateReviewReq req) eqn:Hv; cbn.
      * split; [split; [discriminate|]|reflexivity].
        intros (_ & req' & Hreq & Hok). inversion Hreq; subst req'.
        apply validateReviewReq_accepts in Hok. congruence.
      * apply validateReviewReq_accepts in Hv.
        assert (P : movieId <> "" /\
                    exists req0, Some req = Some req0 /\
                      ReqAdminReview req0 <> "" /\ 1 <= ReqRating req0 <= 10).
        { split; [exact E|]. exists req. split; [reflexivity|exact Hv]. }
        destruct (fault env _); cbn.
        -- split; [split; [intros _; exact P|reflexivity]|].
           intros H. contradiction.
        -- destruct (updateFirst _ _ ms) as [ms' n]. cbn.
           destruct (n =? 0); cbn;
             (split; [split; [intros _; exact P|reflexivity]|];
              intros H; contradiction).
    + split; [split; [discriminate|]|reflexivity].
      intros (_ & req' & Hreq & _). discriminate Hreq.
Qed.

(** ** Sort and limit: the best are listed *)

Lemma StronglySorted_app_inv {A} (R : A -> A -> Prop) l1 l2 :
  StronglySorted R (l1 ++ l2) ->
  forall a b, In a l1 -> In b l2 -> R a b.
Proof.
  induction l1 as [|x l1 IH]; intros H a b Ha Hb; [destruct Ha|].
  simpl in H. apply StronglySorted_inv in H as [Hs Hx].
  destruct Ha as [->|Ha].
  - rewrite Forall_forall in Hx. apply Hx. apply in_or_app. right. exact Hb.
  - exact (IH Hs a b Ha Hb).
Qed.

(** A descending sort with a positive limit [n] lists the best: what the
    filter lets through is the list and a rest, nothing of the rest ranks
    above anything listed, and there is a rest only behind a full list. *)
Lemma selectMovies_best rx f n coll :
  0 < n ->
  let l := selectMovies rx f (mkFindOptions (Some (-1)) n) coll in
  exists rest,
    Permutation (filter (matches rx f) coll) (l ++ rest) /\
    (forall a b, In a l -> In b rest -> descending a b) /\
    (rest <> [] -> List.length l = Z.to_nat n).
Proof.
  intros Hn l.
  pose (sorted := sortMovies (before (-1)) (filter (matches rx f) coll)).
  assert (El : l = firstn (Z.to_nat n) sorted).
  { subst l sorted. unfold selectMovies, applyLimit, applySort. cbn.
    apply Z.ltb_lt in Hn. rewrite Hn. reflexivity. }
  assert (Hs : StronglySorted descending sorted).
  { apply StronglySorted_impl with (R := fun a b => before (-1) a b = true).
    - intros a b. apply keyLe_descending.
    - apply sortMovies_sorted; [apply before_total|apply before_trans]. }
  exists (skipn (Z.to_nat n) sorted). rewrite El.
  rewrite firstn_skipn. split; [apply sortMovies_perm|]. split.
  - apply StronglySorted_app_inv. rewrite firstn_skipn. exact Hs.
  - intros Hrest. rewrite length_firstn. apply Nat.min_l.
    destruct (Nat.le_gt_cases (List.length sorted) (Z.to_nat n)) as [Hle|Hgt];
      [|lia].
    exfalso. apply Hrest. apply skipn_all2. exact Hle.
Qed.

(** X16. When the calls succeed and the worker reports before the timer,
    [GetTopRatedMovies] lists the best: the movies with a ranking value of
    at least 7 are the listed ones and a rest (each as often as it is
    stored), no movie of the rest has a higher ranking value than a listed
    one, and a movie is left out only when 20 are listed. *)
Theorem GetTopRatedMovies_lists_the_best :
  forall (X : Externals) (env : Env) (us : list User) (ms : list Movie),
    timer_first env = false ->
    fault env (Find (FilterRankingGte 7) (mkFindOptions (Some (-1)) 20)) = None ->
    fault env CursorAll = None ->
    exists l rest,
      responseOf (GetTopRatedMovies env) us ms
        = (200, H_top_rated l (Z.of_nat (List.length l)) 7) /\
      Permutation (filter (rankingGte 7) ms) (l ++ rest) /\
      (forall a b, In a l -> In b rest -> descending a b) /\
      (rest <> [] -> List.length l = 20%nat).
Proof.
  intros X env us ms Ht Hf Hc.
  destruct (selectMovies_best regexMatch (FilterRankingGte 7) 20 ms)
    as (rest & HP & Hbest & Hfull); [lia|].
  eexists. exists rest. split; [|split; [exact HP|split; [exact Hbest|exact Hfull]]].
  rewrite GetTopRatedMovies_response. cbv zeta. rewrite Ht, Hf, Hc. reflexivity.
Qed.

(** X16 on the sample catalog. *)
Lemma GetTopRatedMovies_lists_the_best_witness :
  exists l rest,
    responseOf (@GetTopRatedMovies sampleExternals calmEnv) [alice; bob] catalog
      = (200, H_top_rated l (Z.of_nat (List.length l)) 7) /\
    Permutation (filter (rankingGte 7) catalog) (l ++ rest) /\
    (forall a b, In a l -> In b rest -> descending a b) /\
    (rest <> [] -> List.length l = 20%nat).
Proof.
  apply (GetTopRatedMovies_lists_the_best sampleExternals calmEnv [alice; bob]
           catalog eq_refl eq_refl eq_refl).
Defined.

(** X17. When the lookup of the user and the calls succeed and the worker
    reports before the timer, [GetRecommendedMovies] for a user with
    favourite genres answers 200 with the favourite genre names in the
    user's order and lists the best: the movies with one of those genre
    names and a ranking value of at least 6 are the listed ones and a rest,
    no movie of the rest has a higher ranking value than a listed one, and
    a movie is left out only when 10 are listed. *)
Theorem GetRecommendedMovies_lists_the_best :
  forall (X : Externals) (env : Env) (us : list User) (ms : list Movie)
         (userID : string) (user : User),
    userID <> "" ->
    fault env (FindOneByUserID userID) = None ->
    find (fun u => (UserID u =? userID)%string) us = Some user ->
    FavouriteGenres user <> [] ->
    let names := map GenreName (FavouriteGenres user) in
    fault env (Find (FilterGenreInRankingGte names 6)
                    (mkFindOptions (Some (-1)) 10)) = None ->
    fault env CursorAll = None ->
    timer_first env = false ->
    exists l rest,
      responseOf (GetRecommendedMovies env userID) us ms
        = (200, H_recommended l names (Z.of_nat (List.length l))) /\
      Permutation (filter (fun m => genreIn names m && rankingGte 6 m) ms)
                  (l ++ rest) /\
      (forall a b, In a l -> In b rest -> descending a b) /\
      (rest <> [] -> List.length l = 10%nat).
Proof.
  intros X env us ms userID user Hid Hfu Hfind Hfav names Hf Hc Ht.
  destruct (selectMovies_best regexMatch (FilterGenreInRankingGte names 6) 10 ms)
    as (rest & HP & Hbest & Hfull); [lia|].
  eexists. exists rest. split; [|split; [exact HP|split; [exact Hbest|exact Hfull]]].
  rewrite GetRecommendedMovies_response.
  apply String.eqb_neq in Hid. rewrite Hid, Hfu, Hfind. cbv zeta.
  fold names. destruct names as [|n ns] eqn:En.
  - subst names. destruct (FavouriteGenres user); [congruence|discriminate].
  - rewrite Ht, Hf, Hc. reflexivity.
Qed.

(** X17 for [alice] on the sample catalog. *)
Lemma GetRecommendedMovies_lists_the_best_witness :
  exists l rest,
    responseOf (@GetRecommendedMovies sampleExternals calmEnv "u1")
               [alice; bob] catalog
      = (200, H_recommended l ["Drama"] (Z.of_nat (List.length l))) /\
    Permutation (filter (fun m => genreIn ["Drama"] m && rankingGte 6 m) catalog)
                (l ++ rest) /\
    (forall a b, In a l -> In b rest -> descending a b) /\
    (rest <> [] -> List.length l = 10%nat).
Proof.
  apply (GetRecommendedMovies_lists_the_best sampleExternals calmEnv
           [alice; bob] catalog "u1" alice
           ltac:(discriminate) eq_refl eq_refl ltac:(discriminate)
           eq_refl eq_refl eq_refl).
Defined.

(** ** Errors and success answers *)

(** X18. [GetRecommendedMovies] answers 404 "User not found" for every
    failure of the lookup, an error of the store as well as no user with
    that id; it then stops on the handler's own path: no worker is started
    and no movie is queried. *)
Theorem GetRecommendedMovies_lookup_failure :
  forall (X : Externals) (env : Env) (us : list User) (ms : list Movie)
         (userID : string),
    userID <> "" ->
    fault env (FindOneByUserID userID) <> None \/
    find (fun u => (UserID u =? userID)%string) us = None ->
    run (GetRecommendedMovies env userID) us ms =
      ((StatusNotFound, H_error (errorString "User not found")),
       mkState us ms HandlerThread
         [EvStore HandlerThread (FindOneByUserID userID);
          EvJSON 404 (H_error (errorString "User not found"))]).
Proof.
  intros X env us ms userID Hid H. apply String.eqb_neq in Hid.
  exec. rewrite Hid. cbn.
  destruct (fault env (FindOneByUserID userID)) as [e|] eqn:Hf; cbn;
    [reflexivity|].
  destruct H as [H|H]; [congruence|]. rewrite H. reflexivity.
Qed.

(** X18 with the store failing on the lookup of [alice], who is stored. *)
Lemma GetRecommendedMovies_lookup_failure_witness :
  fst (run (@GetRecommendedMovies sampleExternals
              (mkEnv (fun _ => Some (errorString "connection refused")) false
                     "" (fun _ => 0)) "u1")
           [alice; bob] catalog)
  = (404, H_error (errorString "User not found")).
Proof.
  assert (Hid : "u1" <> "") by discriminate.
  assert (Hf : fault (mkEnv (fun _ => Some (errorString "connection refused"))
                            false "" (fun _ => 0)) (FindOneByUserID "u1")
               <> None) by discriminate.
  exact (f_equal fst
           (GetRecommendedMovies_lookup_failure sampleExternals
              (mkEnv (fun _ => Some (errorString "connection refused")) false
                     "" (fun _ => 0))
              [alice; bob] catalog "u1" Hid (or_introl Hf))).
Defined.

(** X19. In every environment the movies [GetMoviesByGenre] lists are
    movies of the collection with a genre name the pattern matches, at
    most 20 of them.  When the calls succeed and the worker reports before
    the timer they are the first 20 such movies in the order of the
    collection (no sort is asked for), and the answer repeats the
    parameter and counts them. *)
Theorem GetMoviesByGenre_lists :
  forall (X : Externals) (env : Env) (us : list User) (ms : list Movie)
         (genreName : string),
    genreName <> "" ->
    let p := fun m => existsb (fun g => regexMatch genreName (GenreName g)) (Genre_ m) in
    let l := moviesOf (body (responseOf (GetMoviesByGenre env genreName) us ms)) in
    (forall m, In m l -> In m ms /\ p m = true) /\
    (List.length l <= 20)%nat /\
    (timer_first env = false ->
     fault env (Find (FilterGenreRegex genreName) (mkFindOptions None 20)) = None ->
     fault env CursorAll = None ->
     responseOf (GetMoviesByGenre env genreName) us ms
       = (200, H_by_genre (firstn 20 (filter p ms)) genreName
                 (Z.of_nat (List.length (firstn 20 (filter p ms)))))).
Proof.
  intros X env us ms g Hg p l. apply String.eqb_neq in Hg.
  assert (E : responseOf (GetMoviesByGenre env g) us ms =
              if timer_first env then (408, H_error (errorString "request timeout"))
              else match fault env (Find (FilterGenreRegex g) (mkFindOptions None 20)) with
                   | Some e => (500, H_error e)
                   | None =>
                       match fault env CursorAll with
                       | Some e => (500, H_error e)
                       | None => (200, H_by_genre (firstn 20 (filter p ms)) g
                                    (Z.of_nat (List.length (firstn 20 (filter p ms)))))
                       end
                   end).
  { exec. rewrite Hg. cbn. split_run; reflexivity. }
  subst l. rewrite E.
  assert (T : (forall m, In m (@nil Movie) -> In m ms /\ p m = true) /\
              (List.length (@nil Movie) <= 20)%nat).
  { split; [intros m []|cbn; lia]. }
  destruct (timer_first env); [destruct T as [T1 T2]; split; [exact T1|split; [exact T2|intros; congruence]]|].
  destruct (fault env (Find _ _));
    [destruct T as [T1 T2]; split; [exact T1|split; [exact T2|intros; congruence]]|].
  destruct (fault env CursorAll);
    [destruct T as [T1 T2]; split; [exact T1|split; [exact T2|intros; congruence]]|].
  unfold body, moviesOf, snd. split; [|split].
  - intros m Hm. apply In_firstn, filter_In in Hm. exact Hm.
  - apply firstn_le_length.
  - reflexivity.
Qed.

(** X19 on the sample catalog and the pattern "Com". *)
Lemma GetMoviesByGenre_lists_witness :
  responseOf (@GetMoviesByGenre sampleExternals calmEnv "Com")
             [alice; bob] catalog
  = (200, H_by_genre [film "tt2" [comedy] (Some 9);
                      film "tt3" [drama; comedy] (Some 8);
                      film "tt6" [comedy] (Some 3)] "Com" 3).
Proof.
  assert (Hg : "Com" <> "") by discriminate.
  exact (proj2 (proj2 (GetMoviesByGenre_lists sampleExternals calmEnv
                         [alice; bob] catalog "Com" Hg))
               eq_refl eq_refl eq_refl).
Defined.

(** X20. When the access token cannot be generated after a registration
    was stored, [RegisterUser] answers 500 "Failed to generate token"
    although the user is in the collection: the same email is refused from
    then on. *)
Theorem RegisterUser_token_failure_after_insert :
  forall (X : Externals) (env : Env) (us : list User) (ms : list Movie)
         (user : User) (hashedPassword : string) (err : error),
    GenerateFromPassword (Password user) = Ok hashedPassword ->
    (forall u, In u us -> Email u <> Email user) ->
    validateUser (stamp env user hashedPassword) = None ->
    fault env (CountDocuments (Email user)) = None ->
    fault env (InsertOneUser (stamp env user hashedPassword)) = None ->
    timer_first env = false ->
    GenerateAccessToken (Email user) (FirstName user) (LastName user)
                        (Role user) (NewObjectIDHex env) = Err err ->
    let out := run (RegisterUser env (Some user)) us ms in
    fst out = (500, H_error (errorString "Failed to generate token")) /\
    users (snd out) = us ++ [stamp env user hashedPassword] /\
    fst (run (RegisterUser env (Some user)) (users (snd out)) ms)
      = (StatusConflict,
         H_error (errorString "User with this email already exists")).
Proof.
  intros X env us ms user h err Hh Hnew Hv Hc Hi Ht Htok out.
  assert (Hnone : forall u, In u us -> (Email u =? Email user)%string = false).
  { intros u Hu. apply String.eqb_neq, Hnew, Hu. }
  assert (E : out = ((500, H_error (errorString "Failed to generate token")),
                     mkState (us ++ [stamp env user h]) ms HandlerThread
                       [EvGo; EvStore WorkerThread (CountDocuments (Email user));
                        EvStore WorkerThread (InsertOneUser (stamp env user h));
                        EvSend resultChan; EvSelect CaseResult;
                        EvJSON 500 (H_error (errorString "Failed to generate token"))])).
  { subst out. exec. rewrite Hh. cbn. rewrite Hc. cbn.
    rewrite (filter_none _ us Hnone). cbn. rewrite Hv. cbn. rewrite Hi. cbn.
    rewrite Ht. cbn. rewrite Htok. reflexivity. }
  rewrite E. cbn. split; [reflexivity|]. split; [reflexivity|].
  exec. rewrite Hh. cbn. rewrite Hc. cbn.
  rewrite filter_app, (filter_none _ us Hnone). cbn.
  rewrite String.eqb_refl. cbn. rewrite Ht. reflexivity.
Qed.

(** X20 on the sample data with a token utility that fails. *)
Lemma RegisterUser_token_failure_after_insert_witness :
  fst (run (@RegisterUser
              (Build_Externals sampleHash sampleCompare
                 (fun _ _ _ _ _ => Err (errorString "signing key missing"))
                 (fun _ _ _ _ _ => Err (errorString "signing key missing"))
                 sampleValidateUser sampleValidateMovie containsStr)
              calmEnv
              (Some (mkUser "" "Al" "Ames" "al@example.com" "pw" "user" 0 0 "" "" [])))
           [alice; bob] catalog)
  = (500, H_error (errorString "Failed to generate token")).
Proof.
  exact (proj1 (RegisterUser_token_failure_after_insert
                  (Build_Externals sampleHash sampleCompare
                     (fun _ _ _ _ _ => Err (errorString "signing key missing"))
                     (fun _ _ _ _ _ => Err (errorString "signing key missing"))
                     sampleValidateUser sampleValidateMovie containsStr)
                  calmEnv [alice; bob] catalog
                  (mkUser "" "Al" "Ames" "al@example.com" "pw" "user" 0 0 "" "" [])
                  "$2a$10$pw" (errorString "signing key missing") eq_refl
                  ltac:(intros u [<-|[<-|[]]]; discriminate)
                  eq_refl eq_refl eq_refl eq_refl eq_refl)).
Defined.

(** X21. A success answer is truthful, in every environment.  [MakeMovies]
    answers 201 only if the movie passed validation and is now the last
    movie of the collection, with every field as submitted and, when it was
    submitted without an "_id", a fresh one; it stores nothing that fails
    validation.  [RegisterUser] answers 201 only if no stored user had the
    email and the last user of the collection is now the submitted record
    as the worker populated it: names, email, role, favourite genres and
    tokens as submitted, the hash for the password, the fresh id, and the
    two readings of the clock; that record passed validation. *)
Theorem created_means_stored :
  forall (X : Externals) (env : Env) (us : list User) (ms : list Movie),
    (forall movie,
       let out := run (MakeMovies env (Some movie)) us ms in
       (status (fst out) = 201 ->
        validateMovie movie = None /\
        exists created,
          movies (snd out) = ms ++ [created] /\
          insertedAs (NewObjectIDHex env) movie created) /\
       (validateMovie movie <> None -> movies (snd out) = ms)) /\
    (forall user,
       let out := run (RegisterUser env (Some user)) us ms in
       status (fst out) = 201 ->
       exists hashedPassword created,
         GenerateFromPassword (Password user) = Ok hashedPassword /\
         (forall u, In u us -> Email u <> Email user) /\
         users (snd out) = us ++ [created] /\
         validateUser created = None /\
         FirstName created = FirstName user /\
         LastName created = LastName user /\
         Email created = Email user /\
         Role created = Role user /\
         FavouriteGenres created = FavouriteGenres user /\
         Token created = Token user /\
         RefreshToken created = RefreshToken user /\
         Password created = hashedPassword /\
         UserID created = NewObjectIDHex env /\
         CreatedAt created = timeNow env 0%nat /\
         UpdatedAt created = timeNow env 1%nat).
Proof.
  intros X env us ms. split.
  - intros movie out. subst out. exec.
    destruct (validateMovie movie) eqn:Hv; cbn.
    + split; [discriminate|reflexivity].
    + split; [|intros H; congruence].
      split_run; intros H; try discriminate H.
      split; [reflexivity|].
      exists (withObjectID (NewObjectIDHex env) movie).
      split; [reflexivity|apply withObjectID_insertedAs].
  - intros user out. subst out. exec.
    destruct (GenerateFromPassword (Password user)) as [h|] eqn:Hh; cbn;
      [|discriminate].
    destruct (fault env (CountDocuments (Email user))); cbn;
      [split_run; discriminate|].
    destruct (0 <? _) eqn:Hc; cbn; [split_run; discriminate|].
    destruct (validateUser (stamp env user h)) eqn:Hv; cbn;
      [split_run; discriminate|].
    destruct (fault env (InsertOneUser (stamp env user h))); cbn;
      [split_run; discriminate|].
    split_run; intros H; try discriminate H.
    exists h, (stamp env user h). split; [reflexivity|].
    split; [|split; [reflexivity|split; [exact Hv|repeat split]]].
    intros u Hu. apply String.eqb_neq. exact (count_zero _ us Hc u Hu).
Qed.

(** X21 on the sample data: a movie submitted without an "_id" and answered
    201 is the last of the collection, under the fresh id. *)
Lemma created_means_stored_witness :
  movies (snd (run (@MakeMovies sampleExternals calmEnv
                      (Some (film "tt9" [comedy] None)))
                   [alice; bob] catalog))
  = catalog ++ [mkMovie "64f0c0ffee64f0c0ffee64f0" "tt9" "tt9"
                        "https://example.com/p.jpg" "yt" [comedy] None None].
Proof.
  destruct (proj1 (proj1 (created_means_stored sampleExternals calmEnv
                            [alice; bob] catalog)
                         (film "tt9" [comedy] None))
                  eq_refl)
    as (_ & created & E & I).
  destruct created as [i im t pp y g a r].
  destruct I as (E1 & E2 & E3 & E4 & E5 & E6 & E7 & _ & E8).
  cbn in E1, E2, E3, E4, E5, E6, E7, E8.
  rewrite E1, E2, E3, E4, E5, E6, E7, (E8 eq_refl) in E. exact E.
Defined.

(** ** The connection string *)

Lemma prefix_nil s : String.prefix "" s = true.
Proof. destruct s; reflexivity. Qed.

Lemma prefix_app p a b :
  String.prefix p a = true -> String.prefix p (a ++ b)%string = true.
Proof.
  revert a. induction p as [|c p IH]; intros a H; [apply prefix_nil|].
  destruct a as [|d a]; [discriminate|]. simpl in *.
  destruct (Ascii.ascii_dec c d); [apply IH; exact H|discriminate].
Qed.

Lemma prefix_refl s : String.prefix s s = true.
Proof.
  induction s as [|c s IH]; [reflexivity|]. simpl.
  destruct (Ascii.ascii_dec c c); [exact IH|contradiction].
Qed.

Lemma containsStr_app_l p a b :
  containsStr p a = true -> containsStr p (a ++ b)%string = true.
Proof.
  induction a as [|c a IH]; intros H.
  - simpl in H. rewrite orb_false_r in H.
    destruct p; [destruct b; reflexivity|discriminate].
  - simpl in H. apply orb_true_iff in H as [H|H].
    + change (String c a ++ b)%string with (String c (a ++ b)%string).
      pose proof (prefix_app p (String c a) b H) as H'.
      change (String c a ++ b)%string with (String c (a ++ b)%string) in H'.
      cbn [containsStr]. rewrite H'. reflexivity.
    + change (String c a ++ b)%string with (String c (a ++ b)%string).
      cbn [containsStr]. rewrite (IH H). apply orb_true_r.
Qed.

Lemma containsStr_app_r p a b :
  containsStr p b = true -> containsStr p (a ++ b)%string = true.
Proof.
  intros H. induction a as [|c a IH]; [exact H|].
  change (String c a ++ b)%string with (String c (a ++ b)%string).
  cbn [containsStr]. rewrite IH. apply orb_true_r.
Qed.

Lemma prefix_app_self a b : String.prefix a (a ++ b)%string = true.
Proof.
  induction a as [|c a IH]; [apply prefix_nil|]. simpl.
  destruct (Ascii.ascii_dec c c); [exact IH|contradiction].
Qed.

(** X22. For a non-empty MONGODB_URI the string handed to the driver
    starts with the configured one, always contains "ssl=true" or
    "tls=true", and contains every part the configured one had; preparing
    it is idempotent: a string that went through once is handed on
    unchanged.  (An empty MONGODB_URI ends the process.) *)
Theorem dbInstance_URI_tls :
  forall (uri : string),
    uri <> "" ->
    exists prepared,
      dbInstance_URI uri = Some prepared /\
      String.prefix uri prepared = true /\
      (strings_Contains prepared "ssl=true" = true \/
       strings_Contains prepared "tls=true" = true) /\
      (forall part, strings_Contains uri part = true ->
                    strings_Contains prepared part = true) /\
      dbInstance_URI prepared = Some prepared.
Proof.
  intros uri Hne. apply String.eqb_neq in Hne.
  pose proof prefix_refl as Hself.
  unfold dbInstance_URI. cbv zeta. rewrite Hne.
  destruct (strings_Contains uri "ssl=true") eqn:Hs; cbn [negb andb].
  - exists uri. rewrite Hne, Hs. cbn. repeat split; auto.
  - destruct (strings_Contains uri "tls=true") eqn:Ht; cbn [negb andb].
    + exists uri. rewrite Hne, Hs, Ht. cbn. repeat split; auto.
    + assert (Hdone : forall sfx,
                containsStr "ssl=true" sfx = true -> sfx <> "" ->
                String.prefix uri (uri ++ sfx) = true /\
                (strings_Contains (uri ++ sfx) "ssl=true" = true \/
                 strings_Contains (uri ++ sfx) "tls=true" = true) /\
                (forall part, strings_Contains uri part = true ->
                              strings_Contains (uri ++ sfx) part = true) /\
                dbInstance_URI (uri ++ sfx) = Some (uri ++ sfx)%string).
      { intros sfx Hsfx Hn.
        assert (Hc : strings_Contains (uri ++ sfx) "ssl=true" = true)
          by (apply containsStr_app_r, Hsfx).
        split; [apply prefix_app_self|]. split; [left; exact Hc|].
        split; [intros part; apply containsStr_app_l|].
        unfold dbInstance_URI. cbv zeta. rewrite Hc. cbn.
        destruct (String.eqb_spec (uri ++ sfx) "") as [E|_]; [|reflexivity].
        destruct uri; [discriminate Hne|discriminate E]. }
      destruct (strings_Contains uri "?"); eexists; (split; [reflexivity|]);
        apply Hdone; (reflexivity || discriminate).
Qed.

(** X22 on a connection string without options and on one with options. *)
Lemma dbInstance_URI_tls_witness :
  dbInstance_URI "mongodb://db.example.com:27017"
    = Some "mongodb://db.example.com:27017?ssl=true&tlsInsecure=false" /\
  dbInstance_URI "mongodb://db.example.com/?retryWrites=true"
    = Some "mongodb://db.example.com/?retryWrites=true&ssl=true&tlsInsecure=false" /\
  exists prepared,
    dbInstance_URI "mongodb://db.example.com:27017" = Some prepared /\
    String.prefix "mongodb://db.example.com:27017" prepared = true /\
    (strings_Contains prepared "ssl=true" = true \/
     strings_Contains prepared "tls=true" = true) /\
    (forall part, strings_Contains "mongodb://db.example.com:27017" part = true ->
                  strings_Contains prepared part = true) /\
    dbInstance_URI prepared = Some prepared.
Proof.
  split; [reflexivity|]. split; [reflexivity|].
  apply (dbInstance_URI_tls "mongodb://db.example.com:27017").
  discriminate.
Defined.

(** ** Store errors, and the id a registration assigns *)

(** X23. When a call on a collection returns an error and the worker
    reports before the timer, the raced movie handlers answer with status
    500 and the text of that error ([err.Error()] reaches the caller as it
    is), for the query as for the reading of its cursor, and leave the
    collections as they were; the worker made no call after the failed one.
    [MakeMovies] answers 500 exactly then: 201 when the insert succeeds.
    [RegisterUser] answers 500 with the text too, for the count query as
    for the insert, unless the text is "User with this email already
    exists", which it answers 409 whatever raised it; nothing is stored. *)
Theorem store_errors_are_answered_with_their_text :
  forall (X : Externals) (env : Env) (us : list User) (ms : list Movie)
         (e : error),
    timer_first env = false ->
    let failed (out : Response * State) (status : Z) (calls : list StoreOp) :=
      out = ((status, H_error e),
             mkState us ms HandlerThread
               (EvGo :: map (EvStore WorkerThread) calls ++
                [EvSend errorChan; EvSelect CaseError;
                 EvJSON status (H_error e)])) in
    let finding (h : M Response) (f : MovieFilter) (o : FindOptions) :=
      (fault env (Find f o) = Some e ->
       failed (run h us ms) 500 [Find f o]) /\
      (fault env (Find f o) = None -> fault env CursorAll = Some e ->
       failed (run h us ms) 500 [Find f o; CursorAll]) in
    finding (GetMovies env) FilterAll noOptions /\
    (forall imdb_id,
       finding (GetMovie env imdb_id) (FilterImdbID imdb_id) noOptions) /\
    finding (GetTopRatedMovies env)
            (FilterRankingGte 7) (mkFindOptions (Some (-1)) 20) /\
    (forall genreName,
       genreName <> "" ->
       finding (GetMoviesByGenre env genreName)
               (FilterGenreRegex genreName) (mkFindOptions None 20)) /\
    (forall movie,
       validateMovie movie = None ->
       (fault env (InsertOneMovie movie) = Some e ->
        failed (run (MakeMovies env (Some movie)) us ms) 500
               [InsertOneMovie movie]) /\
       (fault env (InsertOneMovie movie) = None ->
        responseOf (MakeMovies env (Some movie)) us ms
          = (201, H_message "Movie created successfully"))) /\
    (forall user hashedPassword,
       GenerateFromPassword (Password user) = Ok hashedPassword ->
       let status :=
         if errorIs e "User with this email already exists" then 409 else 500 in
       (fault env (CountDocuments (Email user)) = Some e ->
        failed (run (RegisterUser env (Some user)) us ms) status
               [CountDocuments (Email user)]) /\
       (fault env (CountDocuments (Email user)) = None ->
        (forall u, In u us -> Email u <> Email user) ->
        let populated :=
          mkUser (NewObjectIDHex env) (FirstName user) (LastName user)
                 (Email user) hashedPassword (Role user)
                 (timeNow env 0%nat) (timeNow env 1%nat)
                 (Token user) (RefreshToken user) (FavouriteGenres user) in
        validateUser populated = None ->
        fault env (InsertOneUser populated) = Some e ->
        failed (run (RegisterUser env (Some user)) us ms) status
               [CountDocuments (Email user); InsertOneUser populated])).
Proof.
  intros X env us ms e Ht failed finding. subst finding failed. cbv beta.
  split; [|split; [|split; [|split; [|split]]]].
  - split.
    + intros Hf. exec. rewrite Hf. cbn. rewrite Ht. reflexivity.
    + intros Hf Hc. exec. rewrite Hf. cbn. rewrite Hc. cbn. rewrite Ht.
      reflexivity.
  - intros imdb_id. split.
    + intros Hf. exec. rewrite Hf. cbn. rewrite Ht. reflexivity.
    + intros Hf Hc. exec. rewrite Hf. cbn. rewrite Hc. cbn. rewrite Ht.
      reflexivity.
  - split.
    + intros Hf. exec. rewrite Hf. cbn. rewrite Ht. reflexivity.
    + intros Hf Hc. exec. rewrite Hf. cbn. rewrite Hc. cbn. rewrite Ht.
      reflexivity.
  - intros g Hg. apply String.eqb_neq in Hg. split.
    + intros Hf. exec. rewrite Hg. cbn. rewrite Hf. cbn. rewrite Ht.
      reflexivity.
    + intros Hf Hc. exec. rewrite Hg. cbn. rewrite Hf. cbn. rewrite Hc. cbn.
      rewrite Ht. reflexivity.
  - intros movie Hv. split.
    + intros Hf. exec. rewrite Hv. cbn. rewrite Hf. cbn. rewrite Ht.
      reflexivity.
    + intros Hf. exec. rewrite Hv. cbn. rewrite Hf. cbn. rewrite Ht.
      reflexivity.
  - intros user h Hh status. subst status. split.
    + intros Hf. exec. rewrite Hh. cbn. rewrite Hf. cbn. rewrite Ht. cbn.
      destruct (errorIs e _); reflexivity.
    + intros Hf Hnew populated Hv Hi. subst populated.
      assert (Hnone : forall u, In u us ->
                        (Email u =? Email user)%string = false).
      { intros u Hu. apply String.eqb_neq, Hnew, Hu. }
      exec. rewrite Hh. cbn. rewrite Hf. cbn.
      rewrite (filter_none _ us Hnone). cbn.
      unfold stamp. rewrite Hv. cbn. rewrite Hi. cbn. rewrite Ht. cbn.
      destruct (errorIs e _); reflexivity.
Qed.

(** X23 on the sample data with the store refusing every call: the
    creation of a movie that passes validation. *)
Lemma store_errors_are_answered_with_their_text_witness :
  run (@MakeMovies sampleExternals
         (mkEnv (fun _ => Some (errorString "connection refused")) false
                "" (fun _ => 0))
         (Some (film "tt9" [comedy] None)))
      [alice; bob] catalog
  = ((500, H_error (errorString "connection refused")),
     mkState [alice; bob] catalog HandlerThread
       [EvGo; EvStore WorkerThread (InsertOneMovie (film "tt9" [comedy] None));
        EvSend errorChan; EvSelect CaseError;
        EvJSON 500 (H_error (errorString "connection refused"))]).
Proof.
  assert (Ht : timer_first (mkEnv (fun _ => Some (errorString "connection refused"))
                                  false "" (fun _ => 0)) = false) by reflexivity.
  exact (proj1 (proj1 (proj2 (proj2 (proj2 (proj2
           (store_errors_are_answered_with_their_text sampleExternals
              (mkEnv (fun _ => Some (errorString "connection refused")) false
                     "" (fun _ => 0))
              [alice; bob] catalog (errorString "connection refused") Ht)))))
           (film "tt9" [comedy] None) eq_refl)
         eq_refl).
Defined.

(** X24. The id a registration assigns is the key of the recommendations:
    after a registration with a new email that was stored under a fresh,
    non-empty id, [GetRecommendedMovies] for that id finds the user; with
    no favourite genre submitted it answers the 200 empty-state answer, and
    otherwise, the calls succeeding before the timer, 200 with the
    submitted favourite genre names, in the order submitted, and the best
    of the movies with one of those names and a ranking value of at least
    6: those movies are the listed ones and a rest, no movie of the rest
    ranks above a listed one, and a movie is left out only when 10 are
    listed. *)
Theorem Register_then_GetRecommendedMovies :
  forall (X : Externals) (env1 env2 : Env) (us : list User) (ms : list Movie)
         (user : User) (hashedPassword : string),
    GenerateFromPassword (Password user) = Ok hashedPassword ->
    (forall u, In u us -> Email u <> Email user) ->
    validateUser (stamp env1 user hashedPassword) = None ->
    fault env1 (CountDocuments (Email user)) = None ->
    fault env1 (InsertOneUser (stamp env1 user hashedPassword)) = None ->
    NewObjectIDHex env1 <> "" ->
    (forall u, In u us -> UserID u <> NewObjectIDHex env1) ->
    fault env2 (FindOneByUserID (NewObjectIDHex env1)) = None ->
    let registered := users (snd (run (RegisterUser env1 (Some user)) us ms)) in
    let names := map GenreName (FavouriteGenres user) in
    let f := FilterGenreInRankingGte names 6 in
    let o := mkFindOptions (Some (-1)) 10 in
    (FavouriteGenres user = [] ->
     responseOf (GetRecommendedMovies env2 (NewObjectIDHex env1)) registered ms
       = (200, H_no_favourites "No favorite genres set for user" [] [])) /\
    (FavouriteGenres user <> [] ->
     fault env2 (Find f o) = None ->
     fault env2 CursorAll = None ->
     timer_first env2 = false ->
     exists l rest,
       responseOf (GetRecommendedMovies env2 (NewObjectIDHex env1)) registered ms
         = (200, H_recommended l names (Z.of_nat (List.length l))) /\
       Permutation (filter (fun m => genreIn names m && rankingGte 6 m) ms)
                   (l ++ rest) /\
       StronglySorted descending l /\
       (forall a b, In a l -> In b rest -> descending a b) /\
       (rest <> [] -> List.length l = 10%nat)).
Proof.
  intros X env1 env2 us ms user h Hh Hnew Hv Hc Hi Hid Hfresh Hf
         registered names f o.
  pose (found := selectMovies regexMatch f o ms).
  assert (Hnone : forall u, In u us -> (Email u =? Email user)%string = false).
  { intros u Hu. apply String.eqb_neq, Hnew, Hu. }
  assert (Hnoid : forall u, In u us ->
                    (UserID u =? NewObjectIDHex env1)%string = false).
  { intros u Hu. apply String.eqb_neq, Hfresh, Hu. }
  assert (E : registered = us ++ [stamp env1 user h]).
  { subst registered. rewrite RegisterUser_users, Hh, Hc.
    rewrite (filter_none _ us Hnone). cbn. rewrite Hv, Hi. reflexivity. }
  apply String.eqb_neq in Hid.
  assert (R : forall P : Response -> Prop,
            P (match names with
               | [] => (200, H_no_favourites "No favorite genres set for user" [] [])
               | _ :: _ =>
                   if timer_first env2
                   then (408, H_error (errorString "request timeout"))
                   else match fault env2 (Find f o) with
                        | Some e => (500, H_error e)
                        | None =>
                            match fault env2 CursorAll with
                            | Some e => (500, H_error e)
                            | None => (200, H_recommended found names
                                              (Z.of_nat (List.length found)))
                            end
                        end
               end) ->
            P (responseOf (GetRecommendedMovies env2 (NewObjectIDHex env1))
                          registered ms)).
  { intros P HP. rewrite GetRecommendedMovies_response, Hid, Hf, E.
    rewrite (find_app_none _ us _ Hnoid). cbn [find stamp UserID].
    rewrite String.eqb_refl. exact HP. }
  split.
  - intros Hfav. apply R. subst names. rewrite Hfav. reflexivity.
  - intros Hfav Hfind Hcur Ht.
    destruct (selectMovies_best regexMatch f 10 ms)
      as (rest & HP & Hbest & Hfull); [lia|].
    exists found, rest.
    split; [|split; [exact HP|split; [|split; [exact Hbest|exact Hfull]]]].
    + apply R.
      destruct names as [|n ns] eqn:En.
      * subst names. destruct (FavouriteGenres user); [congruence|discriminate].
      * rewrite Ht, Hfind, Hcur. reflexivity.
    + apply selectMovies_descending. reflexivity.
Qed.

(** X24 on the sample data: a new user who likes "Comedy". *)
Lemma Register_then_GetRecommendedMovies_witness :
  exists l rest,
    responseOf (@GetRecommendedMovies sampleExternals calmEnv
                  "64f0c0ffee64f0c0ffee64f0")
      (users (snd (run (@RegisterUser sampleExternals calmEnv
         (Some (mkUser "" "Al" "Ames" "al@example.com" "pw" "user" 0 0 "" ""
                       [comedy])))
         [alice; bob] catalog)))
      catalog
    = (200, H_recommended l ["Comedy"] (Z.of_nat (List.length l))) /\
    Permutation (filter (fun m => genreIn ["Comedy"] m && rankingGte 6 m) catalog)
                (l ++ rest) /\
    StronglySorted descending l /\
    (forall a b, In a l -> In b rest -> descending a b) /\
    (rest <> [] -> List.length l = 10%nat).
Proof.
  assert (Hnew : forall u, In u [alice; bob] -> Email u <> "al@example.com")
    by (intros u [<-|[<-|[]]]; discriminate).
  assert (Hid : "64f0c0ffee64f0c0ffee64f0" <> "") by discriminate.
  assert (Hfresh : forall u, In u [alice; bob] ->
                     UserID u <> "64f0c0ffee64f0c0ffee64f0")
    by (intros u [<-|[<-|[]]]; discriminate).
  assert (Hfav : [comedy] <> []) by discriminate.
  exact (proj2 (Register_then_GetRecommendedMovies sampleExternals calmEnv calmEnv
                  [alice; bob] catalog
                  (mkUser "" "Al" "Ames" "al@example.com" "pw" "user" 0 0 "" "" [comedy])
                  "$2a$10$pw" eq_refl Hnew eq_refl eq_refl eq_refl Hid Hfresh eq_refl)
               Hfav eq_refl eq_refl eq_refl).
Defined.
